(** * Pantamak storefront UI: the resilient API client and its data hooks

    A shallow embedding of [src/lib/api.ts] (error classes, [calculateDelay],
    [fetchWithRetry], [apiRequest], the [PantamakAPI] operations,
    [getErrorMessage], [isRetriableError]) and of the React hooks
    [useProducts] and [useInitialData] that consume it.

    Conventions.
    - A JavaScript [number] is an integer of [Z]; the policies and the HTTP
      statuses the client handles are integers, fractions and NaN are outside
      the model.
    - A JavaScript string is a [string] whose characters stand for its
      UTF-16 code units, so [length] is the JavaScript [length]; text outside
      ASCII is outside the model.  The query of [getSearchSuggestions], which
      goes through [encodeURIComponent], is a [JsString]: any sequence of
      code units, unpaired surrogates included.
    - An [async] function is a computation over an explicit [World]: the world
      scripts what the network answers to the k-th [fetch] call and records
      every call, every backoff sleep and every console line. *)

From Stdlib Require Import ZArith List String Ascii Bool Lia DecimalString.
Import ListNotations.

Local Open Scope string_scope.
Local Open Scope Z_scope.

(** ** JavaScript values, template literals *)

(** [`${n}`] and [String(n)] for an integer [n]. *)
Definition numberToString (n : Z) : string :=
  NilZero.string_of_int (Z.to_int n).

(** ** Error classes *)

(** The two classes of the module: [APIError] and its subclass
    [NetworkError]. *)
Inductive ErrorClass : Type :=
| APIErrorClass
| NetworkErrorClass.

(** What a [throw] can carry: an instance of the module's classes, a native
    [TypeError], any other error object (a [DOMException] named [AbortError],
    a [SyntaxError], ...) seen through the two properties the code reads, or
    [undefined] (also the value of an absent [originalError]). *)
Inductive Thrown : Type :=
| ErrorObject (cls : ErrorClass) (message : string) (status : option Z)
           (code : option string) (originalError : Thrown)
| TypeError (message : string)
| OtherError (name : string) (code : option string) (message : string)
| UndefinedValue.

(** [new APIError(message, status?, code?, originalError?)] *)
Definition APIError (message : string) (status : option Z)
    (code : option string) (originalError : Thrown) : Thrown :=
  ErrorObject APIErrorClass message status code originalError.

(** [new NetworkError(message = 'Network connection failed', originalError?)]:
    [super(message, 0, 'NETWORK_ERROR', originalError)]. *)
Definition NetworkError (message : option string)
    (originalError : Thrown) : Thrown :=
  ErrorObject NetworkErrorClass
    (match message with Some m => m | None => "Network connection failed" end)
    (Some 0) (Some "NETWORK_ERROR") originalError.

(** [e instanceof APIError]; a [NetworkError] is one too. *)
Definition instanceof_APIError (e : Thrown) : bool :=
  match e with
  | ErrorObject _ _ _ _ _ => true
  | _ => false
  end.

Definition instanceof_NetworkError (e : Thrown) : bool :=
  match e with
  | ErrorObject NetworkErrorClass _ _ _ _ => true
  | _ => false
  end.

Definition instanceof_TypeError (e : Thrown) : bool :=
  match e with
  | TypeError _ => true
  | _ => false
  end.

(** [e instanceof Error] *)
Definition instanceof_Error (e : Thrown) : bool :=
  match e with
  | UndefinedValue => false
  | _ => true
  end.

(** [e.name]; [None] when reading a property of [e] itself throws. *)
Definition name_of (e : Thrown) : option string :=
  match e with
  | ErrorObject APIErrorClass _ _ _ _ => Some "APIError"
  | ErrorObject NetworkErrorClass _ _ _ _ => Some "NetworkError"
  | TypeError _ => Some "TypeError"
  | OtherError name _ _ => Some name
  | UndefinedValue => None
  end.

(** [e.code], [undefined] rendered as [None]. *)
Definition code_of (e : Thrown) : option string :=
  match e with
  | ErrorObject _ _ _ code _ => code
  | OtherError _ code _ => code
  | _ => None
  end.

Definition status_of (e : Thrown) : option Z :=
  match e with
  | ErrorObject _ _ status _ _ => status
  | _ => None
  end.

Definition message_of (e : Thrown) : string :=
  match e with
  | ErrorObject _ message _ _ _ => message
  | TypeError message => message
  | OtherError _ _ message => message
  | UndefinedValue => ""
  end.

(** [s === lit] on an optional string property. *)
Definition prop_is (p : option string) (lit : string) : bool :=
  match p with
  | Some s => String.eqb s lit
  | None => false
  end.

(** The [DOMException] a [fetch] rejects with when its signal is aborted. *)
Definition AbortError : Thrown :=
  OtherError "AbortError" None "The operation was aborted.".

(** ** Retry configuration and backoff *)

Record RetryConfig : Type := {
  maxRetries : Z;
  baseDelay : Z;
  maxDelay : Z;
  backoffMultiplier : Z
}.

Definition DEFAULT_RETRY_CONFIG : RetryConfig := {|
  maxRetries := 3;
  baseDelay := 1000;
  maxDelay := 10000;
  backoffMultiplier := 2
|}.

(** [calculateDelay]: [Math.min(baseDelay * Math.pow(multiplier, attempt),
    maxDelay)]. *)
Definition calculateDelay (attempt : Z) (config : RetryConfig) : Z :=
  let delay := baseDelay config * backoffMultiplier config ^ attempt in
  Z.min delay (maxDelay config).

(** ** The world an async function runs in *)

(** The signal a [fetch] call may be given: the one of the [AbortController]
    that [fetchWithRetry] creates with its 30 s timer, or one the caller
    owns. *)
Inductive AbortSignal : Type :=
| TimeoutSignal
| CallerSignal.

(** The part of [RequestInit] the client touches. *)
Record RequestInit : Type := {
  signal : option AbortSignal;
  headers : list (string * string)
}.

Definition noOptions : RequestInit := {| signal := None; headers := [] |}.

(** How a computation ends: a value, a [throw], or the model ran out of
    fuel ([fetchWithRetry_total] shows it never does). *)
Inductive Completion (A : Type) : Type :=
| Normal (a : A)
| Abrupt (e : Thrown)
| Diverged.

Arguments Normal {A} a.
Arguments Abrupt {A} e.
Arguments Diverged {A}.

Section Client.

(** The type of the [data] member of the server envelope. *)
Context {T : Type}.

(** What [response.json()] gives. *)
Inductive Body : Type :=
| Malformed
| JsonNull
| Envelope (success : bool) (data : T) (error : option string).

Record Response : Type := {
  status : Z;
  body : Body
}.

(** [response.ok]: the status is in the range 200-299. *)
Definition ok (r : Response) : bool :=
  (200 <=? status r) && (status r <=? 299).

(** What the network does with one call when nothing aborts it. *)
Inductive NetOutcome : Type :=
| Resolved (r : Response)
| Rejected (e : Thrown).

Record World : Type := {
  (** [process.env.NEXT_PUBLIC_API_URL] *)
  NEXT_PUBLIC_API_URL : option string;
  (** the answer to the k-th [fetch] call (0-based, over the whole run) *)
  network : nat -> NetOutcome;
  (** whether the 30 s timer fires before the k-th call settles *)
  timerFires : nat -> bool;
  (** whether the caller's own signal is aborted before the k-th call
      settles *)
  callerAborts : nat -> bool;
  (** every [fetch] call issued so far, oldest first *)
  requests : list (string * RequestInit);
  (** every backoff sleep so far, oldest first *)
  sleeps : list Z;
  (** every console line so far, oldest first *)
  console : list string
}.

Definition calls (w : World) : nat := List.length (requests w).

Definition Async (A : Type) : Type := World -> Completion A * World.

Definition ret {A : Type} (a : A) : Async A := fun w => (Normal a, w).

Definition throw {A : Type} (e : Thrown) : Async A := fun w => (Abrupt e, w).

Definition bind {A B : Type} (m : Async A) (k : A -> Async B) : Async B :=
  fun w =>
    match m w with
    | (Normal a, w') => k a w'
    | (Abrupt e, w') => (Abrupt e, w')
    | (Diverged, w') => (Diverged, w')
    end.

(** [try { m } catch (error) { handler error }] *)
Definition tryCatch {A : Type} (m : Async A) (handler : Thrown -> Async A)
    : Async A :=
  fun w =>
    match m w with
    | (Normal a, w') => (Normal a, w')
    | (Abrupt e, w') => handler e w'
    | (Diverged, w') => (Diverged, w')
    end.

Notation "x <- m ;; k" := (bind m (fun x => k))
  (at level 61, m at next level, right associativity).

(** [await sleep(ms)] *)
Definition sleep (ms : Z) : Async unit := fun w =>
  (Normal tt,
   {| NEXT_PUBLIC_API_URL := NEXT_PUBLIC_API_URL w; network := network w;
      timerFires := timerFires w; callerAborts := callerAborts w;
      requests := requests w;
      sleeps := (sleeps w ++ [ms])%list; console := console w |}).

(** [console.log(line)] *)
Definition console_log (line : string) : Async unit := fun w =>
  (Normal tt,
   {| NEXT_PUBLIC_API_URL := NEXT_PUBLIC_API_URL w; network := network w;
      timerFires := timerFires w; callerAborts := callerAborts w;
      requests := requests w;
      sleeps := sleeps w; console := (console w ++ [line])%list |}).

(** Whether the signal given to the k-th call is aborted while the call is
    pending. *)
Definition aborted (w : World) (k : nat) (s : option AbortSignal) : bool :=
  match s with
  | Some TimeoutSignal => timerFires w k
  | Some CallerSignal => callerAborts w k
  | None => false
  end.

(** What the k-th call settles to, given the signal it carries: an aborted
    signal rejects it with [AbortError], otherwise the network decides. *)
Definition settle (w : World) (k : nat) (s : option AbortSignal)
    : NetOutcome :=
  if aborted w k s then Rejected AbortError else network w k.

(** [await fetch(url, init)] *)
Definition fetch (url : string) (init : RequestInit) : Async Response :=
  fun w =>
    let w' :=
      {| NEXT_PUBLIC_API_URL := NEXT_PUBLIC_API_URL w; network := network w;
         timerFires := timerFires w; callerAborts := callerAborts w;
         requests := (requests w ++ [(url, init)])%list;
         sleeps := sleeps w; console := console w |} in
    match settle w (calls w) (signal init) with
    | Resolved r => (Normal r, w')
    | Rejected e => (Abrupt e, w')
    end.

(** ** fetchWithRetry *)

(** [{...o, [k]: v}] on an object given by its entries. *)
Fixpoint assign (o : list (string * string)) (k v : string)
    : list (string * string) :=
  match o with
  | [] => [(k, v)]
  | (k', v') :: rest =>
      if String.eqb k' k then (k', v) :: rest else (k', v') :: assign rest k v
  end.

(** [{...base, ...extra}] *)
Definition spread (base extra : list (string * string))
    : list (string * string) :=
  fold_left (fun o kv => assign o (fst kv) (snd kv)) extra base.

(** The init object of the [fetch] call: the caller's options, then the
    controller's signal, then the merged headers. *)
Definition requestInit (options : RequestInit) : RequestInit :=
  {| signal := Some TimeoutSignal;
     headers :=
       spread [("Content-Type", "application/json");
               ("Accept", "application/json")]
              (headers options) |}.

(** The body of the [try] block of one attempt. *)
Definition tryBlock (url : string) (options : RequestInit) : Async Response :=
  response <- fetch url (requestInit options) ;;
  if ok response then ret response
  else if status response <? 500 then
    throw (APIError ("HTTP error! status: " ++ numberToString (status response))
                    (Some (status response)) (Some "HTTP_ERROR") UndefinedValue)
  else
    throw (APIError ("Server error: " ++ numberToString (status response))
                    (Some (status response)) (Some "SERVER_ERROR") UndefinedValue).

(** [error instanceof APIError && error.status && error.status < 500] *)
Definition nonRetriable (error : Thrown) : bool :=
  instanceof_APIError error &&
  match status_of error with
  | Some s => negb (s =? 0) && (s <? 500)
  | None => false
  end.

(** [error instanceof TypeError || error.name === 'AbortError' ||
    error.code === 'NETWORK_ERR'] *)
Definition isNetworkFailure (error : Thrown) : bool :=
  instanceof_TypeError error
  || prop_is (name_of error) "AbortError"
  || prop_is (code_of error) "NETWORK_ERR".

(** The value of [lastError] once the [catch] clause has looked at a
    retriable [error]. *)
Definition classify (error : Thrown) : Thrown :=
  if isNetworkFailure error then
    NetworkError
      (Some "Unable to connect to the server. Please check your internet connection.")
      error
  else error.

Definition retryLine (delay attempt : Z) (retryConfig : RetryConfig) : string :=
  "Request failed, retrying in " ++ numberToString delay
  ++ "ms... (attempt " ++ numberToString (attempt + 1) ++ "/"
  ++ numberToString (maxRetries retryConfig + 1) ++ ")".

(** [throw lastError!] with [lastError] possibly never assigned. *)
Definition throwLast {A : Type} (lastError : option Thrown) : Async A :=
  match lastError with
  | Some e => throw e
  | None => throw UndefinedValue
  end.

(** The [for] loop of [fetchWithRetry] from iteration [attempt] on, followed
    by the trailing [throw lastError!].  [fuel] bounds the iterations. *)
Fixpoint retryLoop (fuel : nat) (url : string) (options : RequestInit)
    (retryConfig : RetryConfig) (attempt : Z) (lastError : option Thrown)
    : Async Response :=
  if attempt <=? maxRetries retryConfig then
    match fuel with
    | O => fun w => (Diverged, w)
    | S fuel' =>
        tryCatch (tryBlock url options) (fun error =>
          if nonRetriable error then throw error
          else
            match name_of error with
            | None =>
                throw (TypeError
                  "Cannot read properties of undefined (reading 'name')")
            | Some _ =>
                let lastError' := classify error in
                if attempt =? maxRetries retryConfig then throw lastError'
                else
                  let delay := calculateDelay attempt retryConfig in
                  _ <- console_log (retryLine delay attempt retryConfig) ;;
                  _ <- sleep delay ;;
                  retryLoop fuel' url options retryConfig (attempt + 1)
                            (Some lastError')
            end)
    end
  else throwLast lastError.

(** The loop runs for [attempt = 0, ..., maxRetries]: [maxRetries + 1]
    iterations at most. *)
Definition fetchWithRetry (url : string) (options : RequestInit)
    (retryConfig : RetryConfig) : Async Response :=
  retryLoop (Z.to_nat (maxRetries retryConfig + 1)) url options retryConfig
            0 None.

(** ** apiRequest *)

(** [a || b] on an optional string: [undefined] and the empty string are
    falsy. *)
Definition orDefault (a : option string) (b : string) : string :=
  match a with
  | Some (String c rest) => String c rest
  | _ => b
  end.

Definition API_BASE_URL (w : World) : string :=
  orDefault (NEXT_PUBLIC_API_URL w) "https://shop.pantamak.com/api/v1".

(** The [try] block of [apiRequest]: the call, [await response.json()], the
    read of [data.success]. *)
Definition apiRequestBody (url : string) (options : RequestInit) : Async T :=
  response <- fetchWithRetry url options DEFAULT_RETRY_CONFIG ;;
  match body response with
  | Malformed =>
      throw (OtherError "SyntaxError" None "Unexpected token in JSON")
  | JsonNull =>
      throw (TypeError "Cannot read properties of null (reading 'success')")
  | Envelope success data error =>
      if negb success then
        throw (APIError (orDefault error "API request failed")
                        (Some (status response)) (Some "API_ERROR")
                        UndefinedValue)
      else ret data
  end.

Definition apiRequest (endpoint : string) (options : RequestInit) : Async T :=
  fun w =>
    let url := API_BASE_URL w ++ endpoint in
    tryCatch (apiRequestBody url options) (fun error =>
      if instanceof_APIError error then throw error
      else
        throw (APIError "An unexpected error occurred" (Some 500)
                        (Some "UNKNOWN_ERROR") error)) w.

End Client.

Arguments Body : clear implicits.
Arguments Response : clear implicits.
Arguments NetOutcome : clear implicits.
Arguments World : clear implicits.
Arguments Async : clear implicits.
(** ** Query strings *)

(** A scalar of a parameter mapping ([Record<string, any>]). *)
Inductive ParamValue : Type :=
| PUndefined
| PNull
| PBoolean (b : bool)
| PNumber (n : Z)
| PString (s : string).

(** [String(value)] *)
Definition toStringValue (value : ParamValue) : string :=
  match value with
  | PUndefined => "undefined"
  | PNull => "null"
  | PBoolean true => "true"
  | PBoolean false => "false"
  | PNumber n => numberToString n
  | PString s => s
  end.

(** [value !== undefined && value !== null && value !== ''] *)
Definition retained (value : ParamValue) : bool :=
  match value with
  | PUndefined => false
  | PNull => false
  | PString EmptyString => false
  | _ => true
  end.

(** A [URLSearchParams] object: its list of name-value pairs. *)
Definition URLSearchParams : Type := list (string * string).

(** [searchParams.append(key, value)] *)
Definition append (searchParams : URLSearchParams) (key value : string)
    : URLSearchParams :=
  (searchParams ++ [(key, value)])%list.

(** [Object.entries(params).forEach(...)] over a fresh [URLSearchParams];
    [params] is given by its entries, in the order of [Object.entries]. *)
Definition buildSearchParams (params : list (string * ParamValue))
    : URLSearchParams :=
  fold_left
    (fun searchParams entry =>
       let '(key, value) := entry in
       if retained value then append searchParams key (toStringValue value)
       else searchParams)
    params [].

Definition between (lo hi : nat) (c : ascii) : bool :=
  (lo <=? nat_of_ascii c)%nat && (nat_of_ascii c <=? hi)%nat.

Definition isAlphanumeric (c : ascii) : bool :=
  between 48 57 c || between 65 90 c || between 97 122 c.

Definition oneOf (set : string) (c : ascii) : bool :=
  existsb (Ascii.eqb c) (list_ascii_of_string set).

Definition hexDigit (n : nat) : ascii :=
  nth n (list_ascii_of_string "0123456789ABCDEF") "0"%char.

(** [%XX] for one byte. *)
Definition percentEncode (c : ascii) : string :=
  String "%"
    (String (hexDigit (Nat.div (nat_of_ascii c) 16))
       (String (hexDigit (Nat.modulo (nat_of_ascii c) 16)) EmptyString)).

Fixpoint encodeWith (keep : ascii -> bool) (plus : bool) (s : string)
    : string :=
  match s with
  | EmptyString => EmptyString
  | String c rest =>
      (if keep c then String c EmptyString
       else if plus && Ascii.eqb c " " then "+"
       else percentEncode c) ++ encodeWith keep plus rest
  end.

(** The [application/x-www-form-urlencoded] serialisation of one string. *)
Definition formEncode : string -> string :=
  encodeWith (fun c => isAlphanumeric c || oneOf "*-._" c) true.

(** A JavaScript string seen through its UTF-16 code units, each in
    [0, 65535]: what [length] counts and what [encodeURIComponent] reads. *)
Definition JsString : Type := list Z.

(** The [JsString] of an ASCII text. *)
Definition jsString (s : string) : JsString :=
  map (fun c => Z.of_nat (nat_of_ascii c)) (list_ascii_of_string s).

Definition isHighSurrogate (u : Z) : bool := (55296 <=? u) && (u <=? 56319).

Definition isLowSurrogate (u : Z) : bool := (56320 <=? u) && (u <=? 57343).

(** The code points of a string: a high surrogate followed by a low one is
    one code point, any other surrogate is unpaired and there is no
    result. *)
Fixpoint codePoints (s : JsString) : option (list Z) :=
  match s with
  | [] => Some []
  | u :: rest =>
      if isHighSurrogate u then
        match rest with
        | l :: rest' =>
            if isLowSurrogate l then
              option_map
                (cons (65536 + (u - 55296) * 1024 + (l - 56320)))
                (codePoints rest')
            else None
        | [] => None
        end
      else if isLowSurrogate u then None
      else option_map (cons u) (codePoints rest)
  end.

(** Two high surrogates in a row: a string of length 2 that is not
    well-formed UTF-16 (['\uD800\uD800']). *)
Definition unpairedSurrogates : JsString := [55296; 55296].

(** The UTF-8 bytes of a code point. *)
Definition utf8 (c : Z) : list Z :=
  if c <? 128 then [c]
  else if c <? 2048 then [192 + c / 64; 128 + c mod 64]
  else if c <? 65536 then
    [224 + c / 4096; 128 + (c / 64) mod 64; 128 + c mod 64]
  else
    [240 + c / 262144; 128 + (c / 4096) mod 64; 128 + (c / 64) mod 64;
     128 + c mod 64].

(** One byte of the encoding: itself when it is an unreserved character,
    [%XX] otherwise. *)
Definition escapeByte (b : Z) : string :=
  let c := ascii_of_nat (Z.to_nat b) in
  if (b <? 128) && (isAlphanumeric c || oneOf "-_.!~*'()" c)
  then String c EmptyString
  else percentEncode c.

(** [encodeURIComponent]: the escaped UTF-8 bytes of the code points;
    [None] when it throws [URIError], which it does on an unpaired
    surrogate. *)
Definition encodeURIComponent (s : JsString) : option string :=
  option_map
    (fun points => String.concat "" (map escapeByte (flat_map utf8 points)))
    (codePoints s).

(** [searchParams.toString()] *)
Fixpoint searchParamsToString (searchParams : URLSearchParams) : string :=
  match searchParams with
  | [] => ""
  | [(k, v)] => formEncode k ++ "=" ++ formEncode v
  | (k, v) :: rest =>
      formEncode k ++ "=" ++ formEncode v ++ "&" ++ searchParamsToString rest
  end.

(** ** The PantamakAPI operations *)

Module PantamakAPI.

Definition getProducts {T : Type} (params : list (string * ParamValue))
    : Async T T :=
  let searchParams := buildSearchParams params in
  apiRequest ("/products?" ++ searchParamsToString searchParams) noOptions.

Definition getProduct {T : Type} (productId : Z) : Async T T :=
  apiRequest ("/products/" ++ numberToString productId) noOptions.

Definition getShops {T : Type} (params : list (string * ParamValue))
    : Async T T :=
  let searchParams := buildSearchParams params in
  apiRequest ("/shops?" ++ searchParamsToString searchParams) noOptions.

Definition getShop {T : Type} (shopId : Z) : Async T T :=
  apiRequest ("/shops/" ++ numberToString shopId) noOptions.

Definition getProductCategories {T : Type} : Async T T :=
  apiRequest "/categories/products" noOptions.

Definition getShopCategories {T : Type} : Async T T :=
  apiRequest "/categories/shops" noOptions.

Definition getCities {T : Type} : Async T T :=
  apiRequest "/cities" noOptions.

Record SearchSuggestions : Type := {
  shops : list (Z * string * option string);
  products : list (Z * string * Z);
  categories : list (string * string)
}.

(** The template literal is evaluated before [apiRequest] is entered: an
    [URIError] of [encodeURIComponent] is thrown as it is, ahead of any
    call. *)
Definition getSearchSuggestions (query : JsString)
    : Async SearchSuggestions SearchSuggestions :=
  if Z.of_nat (List.length query) <? 2 then
    ret {| shops := []; products := []; categories := [] |}
  else
    match encodeURIComponent query with
    | Some encoded =>
        apiRequest ("/search/suggestions?query=" ++ encoded) noOptions
    | None => throw (OtherError "URIError" None "URI malformed")
    end.

Definition getStats {T : Type} : Async T T :=
  apiRequest "/stats" noOptions.

End PantamakAPI.

(** ** Error handling utilities *)

Definition getErrorMessage (error : Thrown) : string :=
  if instanceof_NetworkError error then
    "Unable to connect to the server. Please check your internet connection and try again."
  else if instanceof_APIError error then
    if prop_is (code_of error) "HTTP_ERROR" then
      match status_of error with
      | Some 404 => "The requested resource was not found."
      | Some 400 => "Invalid request. Please check your input and try again."
      | _ => message_of error
      end
    else if prop_is (code_of error) "SERVER_ERROR" then
      "Server error. Please try again in a few moments."
    else message_of error
  else if instanceof_Error error then message_of error
  else "An unexpected error occurred. Please try again.".

Definition isRetriableError (error : Thrown) : bool :=
  if instanceof_NetworkError error then true
  else if instanceof_APIError error then
    prop_is (code_of error) "SERVER_ERROR"
    || match status_of error with
       | None => true          (* error.status === undefined *)
       | Some s => 500 <=? s   (* error.status >= 500 *)
       end
  else false.

(** ** The products hook

    [fetchProducts] is an async function with one [await]; it is split there
    into [fetchProducts_start] (what runs when it is called) and
    [fetchProducts_resume] (what runs when the awaited promise settles).  The
    awaited promise is [PantamakAPI.getProducts(params)]: the call is given
    the parameters only, not the controller and not its signal. *)

Module UseProducts.

Section Hook.

Context {D : Type}.

Record State : Type := {
  data : option D;
  loading : bool;
  error : option string;
  (** [abortControllerRef.current], an index into [controllers] *)
  abortControllerRef : option nat;
  (** the [aborted] flag of every [AbortController] created so far *)
  controllers : list bool
}.

(** The first render: [useState(null)], [useState(enabled)],
    [useState(null)], [useRef(null)]. *)
Definition mount (enabled : bool) : State :=
  {| data := None; loading := enabled; error := None;
     abortControllerRef := None; controllers := [] |}.

Definition setData (v : option D) (st : State) : State :=
  {| data := v; loading := loading st; error := error st;
     abortControllerRef := abortControllerRef st;
     controllers := controllers st |}.

Definition setLoading (v : bool) (st : State) : State :=
  {| data := data st; loading := v; error := error st;
     abortControllerRef := abortControllerRef st;
     controllers := controllers st |}.

Definition setError (v : option string) (st : State) : State :=
  {| data := data st; loading := loading st; error := v;
     abortControllerRef := abortControllerRef st;
     controllers := controllers st |}.

(** [controller.abort()] on the i-th controller *)
Fixpoint abort (cs : list bool) (i : nat) : list bool :=
  match cs, i with
  | [], _ => []
  | _ :: rest, O => true :: rest
  | c :: rest, S i' => c :: abort rest i'
  end.

(** [if (abortControllerRef.current) abortControllerRef.current.abort();
    abortControllerRef.current = new AbortController();] *)
Definition renewController (st : State) : State :=
  let cs :=
    match abortControllerRef st with
    | Some i => abort (controllers st) i
    | None => controllers st
    end in
  {| data := data st; loading := loading st; error := error st;
     abortControllerRef := Some (List.length cs);
     controllers := (cs ++ [false])%list |}.

(** [fetchProducts] up to its [await]; the boolean tells whether a request
    was issued. *)
Definition fetchProducts_start (enabled : bool) (st : State) : State * bool :=
  if negb enabled then (st, false)
  else (setError None (setLoading true (renewController st)), true).

(** [fetchProducts] from its [await] on: the [try] continuation, the [catch]
    clause, the [finally] clause. *)
Definition fetchProducts_resume (outcome : Completion D) (st : State)
    : State :=
  match outcome with
  | Normal response => setLoading false (setData (Some response) st)
  | Abrupt err =>
      match name_of err with
      | Some name =>
          setLoading false
            (if negb (String.eqb name "AbortError")
             then setError (Some (getErrorMessage err)) st
             else st)
      | None => setLoading false st
      end
  | Diverged => st
  end.

(** A request in flight: the controller that was current when it was issued,
    its parameters, and the world its [fetch] calls go to. *)
Record InFlight : Type := {
  controller : nat;
  params : list (string * ParamValue);
  world : World D
}.

(** The hook with its requests in flight, oldest first. *)
Record Hook : Type := {
  state : State;
  inFlight : list InFlight
}.

Inductive Event : Type :=
| Fetch (params : list (string * ParamValue)) (w : World D)
| Settle (id : nat).

(** The world of a request as the hook's controller leaves it: the hook is
    the caller, and its signal is aborted exactly when the controller is. *)
Definition seenBy (cs : list bool) (r : InFlight) : World D :=
  let w := world r in
  {| NEXT_PUBLIC_API_URL := NEXT_PUBLIC_API_URL w; network := network w;
     timerFires := timerFires w;
     callerAborts := fun _ => nth (controller r) cs false;
     requests := requests w; sleeps := sleeps w; console := console w |}.

Definition step (enabled : bool) (h : Hook) (ev : Event) : Hook :=
  match ev with
  | Fetch ps w =>
      match fetchProducts_start enabled (state h) with
      | (st, true) =>
          {| state := st;
             inFlight :=
               (inFlight h ++
                [{| controller :=
                      match abortControllerRef st with
                      | Some i => i
                      | None => O
                      end;
                    params := ps; world := w |}])%list |}
      | (st, false) => {| state := st; inFlight := inFlight h |}
      end
  | Settle id =>
      match nth_error (inFlight h) id with
      | Some r =>
          let outcome :=
            fst (PantamakAPI.getProducts (params r)
                   (seenBy (controllers (state h)) r)) in
          {| state := fetchProducts_resume outcome (state h);
             inFlight := inFlight h |}
      | None => h
      end
  end.

Definition run (enabled : bool) (events : list Event) : Hook :=
  fold_left (step enabled) events
            {| state := mount enabled; inFlight := [] |}.

End Hook.

Arguments State : clear implicits.
Arguments InFlight : clear implicits.
Arguments Hook : clear implicits.
Arguments Event : clear implicits.

End UseProducts.

(** ** The initial-data hook

    [fetchInitialData] awaits [Promise.allSettled] of three API calls, which
    never rejects; the function is split at that [await].  A call that
    completes normally is a [fulfilled] result, one that throws a [rejected]
    one.  Nothing in the [try] block can throw, so its [catch] clause has no
    counterpart here. *)

Module UseInitialData.

Section Hook.

Context {P C Ci : Type}.

Record State : Type := {
  loading : bool;
  error : option string;
  products : option P;
  categories : option C;
  cities : option Ci
}.

Definition mount : State :=
  {| loading := true; error := None; products := None; categories := None;
     cities := None |}.

Definition setLoading (v : bool) (st : State) : State :=
  {| loading := v; error := error st; products := products st;
     categories := categories st; cities := cities st |}.

Definition setError (v : option string) (st : State) : State :=
  {| loading := loading st; error := v; products := products st;
     categories := categories st; cities := cities st |}.

Definition setProducts (v : option P) (st : State) : State :=
  {| loading := loading st; error := error st; products := v;
     categories := categories st; cities := cities st |}.

Definition setCategories (v : option C) (st : State) : State :=
  {| loading := loading st; error := error st; products := products st;
     categories := v; cities := cities st |}.

Definition setCities (v : option Ci) (st : State) : State :=
  {| loading := loading st; error := error st; products := products st;
     categories := categories st; cities := v |}.

(** [result.status === 'rejected'] *)
Definition isRejected {A : Type} (result : Completion A) : bool :=
  match result with
  | Abrupt _ => true
  | _ => false
  end.

Definition fetchInitialData_start (st : State) : State :=
  setError None (setLoading true st).

Definition fetchInitialData_resume (productsResponse : Completion P)
    (categoriesResponse : Completion C) (citiesResponse : Completion Ci)
    (st : State) : State :=
  let st1 :=
    match productsResponse with
    | Normal value => setProducts (Some value) st
    | _ => st
    end in
  let st2 :=
    match categoriesResponse with
    | Normal value => setCategories (Some value) st1
    | _ => st1
    end in
  let st3 :=
    match citiesResponse with
    | Normal value => setCities (Some value) st2
    | _ => st2
    end in
  let st4 :=
    if isRejected productsResponse && isRejected categoriesResponse
       && isRejected citiesResponse
    then
      setError
        (Some "Unable to load data. Please check your internet connection and try again.")
        st3
    else st3 in
  setLoading false st4.

(** One whole [fetchInitialData()]: each of the three calls runs against its
    own world. *)
Definition fetchInitialData (wp : World P) (wc : World C) (wci : World Ci)
    (st : State) : State :=
  fetchInitialData_resume
    (fst (PantamakAPI.getProducts
            [("page", PNumber 1); ("per_page", PNumber 20)] wp))
    (fst (PantamakAPI.getProductCategories wc))
    (fst (PantamakAPI.getCities wci))
    (fetchInitialData_start st).

End Hook.

Arguments State : clear implicits.

End UseInitialData.

(** ** Vocabulary of the statements *)

Section Vocabulary.

Context {T : Type}.

(** What the k-th [fetch] call settles to when [fetchWithRetry] issues it:
    the call carries the timeout controller's signal. *)
Definition outcome (w : World T) (k : nat) : NetOutcome T :=
  settle w k (Some TimeoutSignal).

(** How the [try] block of an attempt ends on a given outcome. *)
Definition attemptResult (o : NetOutcome T) : Completion (Response T) :=
  match o with
  | Resolved r =>
      if ok r then Normal r
      else if status r <? 500 then
        Abrupt (APIError ("HTTP error! status: " ++ numberToString (status r))
                         (Some (status r)) (Some "HTTP_ERROR") UndefinedValue)
      else
        Abrupt (APIError ("Server error: " ++ numberToString (status r))
                         (Some (status r)) (Some "SERVER_ERROR")
                         UndefinedValue)
  | Rejected e => Abrupt e
  end.

(** An attempt that fails and is retried while attempts remain: a response
    with a 5xx status, or a rejection with an error object that is not an
    [APIError] carrying a non-zero status below 500. *)
Definition retriableFailure (o : NetOutcome T) : bool :=
  match o with
  | Resolved r => 500 <=? status r
  | Rejected e => instanceof_Error e && negb (nonRetriable e)
  end.

(** The world once one more call of [fetchWithRetry url options] is on
    record. *)
Definition issued (url : string) (options : RequestInit) (w : World T)
    : World T :=
  {| NEXT_PUBLIC_API_URL := NEXT_PUBLIC_API_URL w; network := network w;
     timerFires := timerFires w; callerAborts := callerAborts w;
     requests := (requests w ++ [(url, requestInit options)])%list;
     sleeps := sleeps w; console := console w |}.

(** The world once the backoff after a failed [attempt] is over. *)
Definition backedOff (retryConfig : RetryConfig) (attempt : Z) (w : World T)
    : World T :=
  {| NEXT_PUBLIC_API_URL := NEXT_PUBLIC_API_URL w; network := network w;
     timerFires := timerFires w; callerAborts := callerAborts w;
     requests := requests w;
     sleeps := (sleeps w ++ [calculateDelay attempt retryConfig])%list;
     console :=
       (console w ++
        [retryLine (calculateDelay attempt retryConfig) attempt retryConfig])%list |}.

(** The same world with another history of the caller's signal. *)
Definition withCallerAborts (f : nat -> bool) (w : World T) : World T :=
  {| NEXT_PUBLIC_API_URL := NEXT_PUBLIC_API_URL w; network := network w;
     timerFires := timerFires w; callerAborts := f;
     requests := requests w; sleeps := sleeps w; console := console w |}.

(** A fresh world: nothing on record yet. *)
Definition freshWorld (net : nat -> NetOutcome T) (timer caller : nat -> bool)
    : World T :=
  {| NEXT_PUBLIC_API_URL := None; network := net; timerFires := timer;
     callerAborts := caller; requests := []; sleeps := []; console := [] |}.

End Vocabulary.

(** The attempt indices [a], [a+1], ..., [a+m-1]. *)
Definition attemptsFrom (a : Z) (m : nat) : list Z :=
  map (fun i => a + Z.of_nat i) (seq 0 m).

(** ** Worlds used as examples *)

(** A server that answers 200 with the given body. *)
Definition answers {T : Type} (b : Body T) : World T :=
  freshWorld (fun _ => Resolved {| status := 200; body := b |})
             (fun _ => false) (fun _ => false).

(** A suggestions server that answers every call with [null]. *)
Definition nullSuggestions : World PantamakAPI.SearchSuggestions :=
  answers JsonNull.

(** A server that answers every call with a successful envelope around
    [d]. *)
Definition serves (d : string) : World string :=
  answers (Envelope true d None).

(** A server that answers every call with status [s]. *)
Definition alwaysStatus (s : Z) : World unit :=
  freshWorld (fun _ => Resolved {| status := s; body := Malformed |})
             (fun _ => false) (fun _ => false).

(** A network on which every call fails to connect. *)
Definition alwaysOffline : World unit :=
  freshWorld (fun _ => Rejected (TypeError "Failed to fetch"))
             (fun _ => false) (fun _ => false).

(** The 30 s timer fires on every attempt. *)
Definition alwaysTimedOut : World unit :=
  freshWorld (fun _ => Resolved {| status := 200; body := Malformed |})
             (fun _ => true) (fun _ => false).

(** A network that fails to connect twice, then answers 200. *)
Definition flakyTwice : World unit :=
  freshWorld
    (fun k =>
       if (k <? 2)%nat then Rejected (TypeError "Failed to fetch")
       else Resolved {| status := 200; body := Envelope true tt None |})
    (fun _ => false) (fun _ => false).

(** A server that is down once, then answers 304. *)
Definition downThenNotModified : World unit :=
  freshWorld
    (fun k =>
       if (k <? 1)%nat then Resolved {| status := 502; body := Malformed |}
       else Resolved {| status := 304; body := Malformed |})
    (fun _ => false) (fun _ => false).

(** A products server that answers 503 to every call. *)
Definition alwaysDown : World string :=
  freshWorld (fun _ => Resolved {| status := 503; body := Malformed |})
             (fun _ => false) (fun _ => false).

(** The caller aborts its signal at once; the server keeps answering 503. *)
Definition cancelledWorld : World unit :=
  freshWorld (fun _ => Resolved {| status := 503; body := Malformed |})
             (fun _ => false) (fun _ => true).

Definition callerOptions : RequestInit :=
  {| signal := Some CallerSignal; headers := [] |}.

(** Cancellation as the specification asks for it: when the caller has
    handed its own signal to the call and aborts it while the first attempt
    is pending (the 30 s timer has not fired), the run ends with that
    attempt and throws the abort itself. *)
Definition cancellationPropagates {T : Type} (url : string)
    (options : RequestInit) (retryConfig : RetryConfig) (w : World T)
    : Prop :=
  signal options = Some CallerSignal ->
  callerAborts w (calls w) = true ->
  timerFires w (calls w) = false ->
  fst (fetchWithRetry url options retryConfig w) = Abrupt AbortError
  /\ (calls (snd (fetchWithRetry url options retryConfig w))
      <= calls w + 1)%nat.

(** ** The hooks without cancellation: useProduct, useShops, useCategories,
    useCities

    The four hooks hold a [UseApiState] and share the text of their fetch
    function: an optional guard, then [setLoading(true); setError(null)], the
    awaited API call, [setData] on success, [setError(getErrorMessage(err))]
    on failure and [setLoading(false)] in the [finally] clause.  Each fetch
    below is one call of that function run to its end, the API call against
    the world given. *)

Module UseApi.

Section Hooks.

Context {D : Type}.

Record UseApiState : Type := {
  data : option D;
  loading : bool;
  error : option string
}.

(** The first render: [useState(null)], [useState(initialLoading)],
    [useState(null)]. *)
Definition mount (initialLoading : bool) : UseApiState :=
  {| data := None; loading := initialLoading; error := None |}.

Definition setData (v : option D) (st : UseApiState) : UseApiState :=
  {| data := v; loading := loading st; error := error st |}.

Definition setLoading (v : bool) (st : UseApiState) : UseApiState :=
  {| data := data st; loading := v; error := error st |}.

Definition setError (v : option string) (st : UseApiState) : UseApiState :=
  {| data := data st; loading := loading st; error := v |}.

(** The [try] block up to its [await]. *)
Definition begin (st : UseApiState) : UseApiState :=
  setError None (setLoading true st).

(** The rest of the [try] block, the [catch] clause and the [finally]
    clause. *)
Definition finish (outcome : Completion D) (st : UseApiState)
    : UseApiState :=
  match outcome with
  | Normal response => setLoading false (setData (Some response) st)
  | Abrupt err => setLoading false (setError (Some (getErrorMessage err)) st)
  | Diverged => st
  end.

(** [useProduct]: [if (!enabled || !productId) return;] *)
Definition fetchProduct (productId : Z) (enabled : bool) (w : World D)
    (st : UseApiState) : UseApiState :=
  if negb enabled || (productId =? 0) then st
  else finish (fst (PantamakAPI.getProduct productId w)) (begin st).

(** [useShops]: [if (!enabled) return;] *)
Definition fetchShops (params : list (string * ParamValue)) (enabled : bool)
    (w : World D) (st : UseApiState) : UseApiState :=
  if negb enabled then st
  else finish (fst (PantamakAPI.getShops params w)) (begin st).

(** [useCategories]: the endpoint follows [type]. *)
Definition fetchCategories (ofProducts : bool) (w : World D)
    (st : UseApiState) : UseApiState :=
  finish
    (fst (if ofProducts then PantamakAPI.getProductCategories w
          else PantamakAPI.getShopCategories w))
    (begin st).

(** [useCities] *)
Definition fetchCities (w : World D) (st : UseApiState) : UseApiState :=
  finish (fst (PantamakAPI.getCities w)) (begin st).

(** The payload of the last fulfilled outcome of a run of calls, if any. *)
Fixpoint lastFulfilled (outcomes : list (Completion D)) (default : option D)
    : option D :=
  match outcomes with
  | [] => default
  | Normal v :: rest => lastFulfilled rest (Some v)
  | _ :: rest => lastFulfilled rest default
  end.

(** The message of the last outcome when it is a failure. *)
Definition lastFailure (outcomes : list (Completion D)) : option string :=
  match last outcomes Diverged with
  | Abrupt err => Some (getErrorMessage err)
  | _ => None
  end.

End Hooks.

Arguments UseApiState : clear implicits.

End UseApi.

(** ** The suggestions hook, with its debounce timer

    The effect of [useSearchSuggestions] runs when the query changes: the
    cleanup of the previous run clears its timer and aborts the current
    controller, then a timer is set that will call [fetchSuggestions(query)]
    after [debounceMs].  Time is a count of milliseconds. *)

Module UseSearchSuggestions.

Record State : Type := {
  suggestions : option PantamakAPI.SearchSuggestions;
  loading : bool;
  error : option string;
  abortControllerRef : option nat;
  controllers : list bool
}.

Definition mount : State :=
  {| suggestions := None; loading := false; error := None;
     abortControllerRef := None; controllers := [] |}.

Definition setSuggestions (v : option PantamakAPI.SearchSuggestions)
    (st : State) : State :=
  {| suggestions := v; loading := loading st; error := error st;
     abortControllerRef := abortControllerRef st;
     controllers := controllers st |}.

Definition setLoading (v : bool) (st : State) : State :=
  {| suggestions := suggestions st; loading := v; error := error st;
     abortControllerRef := abortControllerRef st;
     controllers := controllers st |}.

Definition setError (v : option string) (st : State) : State :=
  {| suggestions := suggestions st; loading := loading st; error := v;
     abortControllerRef := abortControllerRef st;
     controllers := controllers st |}.

(** [if (abortControllerRef.current) abortControllerRef.current.abort();] *)
Definition abortCurrent (st : State) : State :=
  {| suggestions := suggestions st; loading := loading st;
     error := error st; abortControllerRef := abortControllerRef st;
     controllers :=
       match abortControllerRef st with
       | Some i => UseProducts.abort (controllers st) i
       | None => controllers st
       end |}.

(** [abortControllerRef.current = new AbortController();] *)
Definition newController (st : State) : State :=
  {| suggestions := suggestions st; loading := loading st;
     error := error st;
     abortControllerRef := Some (List.length (controllers st));
     controllers := (controllers st ++ [false])%list |}.

(** [fetchSuggestions] up to its [await]; the boolean tells whether the API
    was called. *)
Definition fetchSuggestions_start (searchQuery : string) (st : State)
    : State * bool :=
  if Z.of_nat (String.length searchQuery) <? 2 then
    (setSuggestions None st, false)
  else
    (setError None (setLoading true (newController (abortCurrent st))), true).

(** [fetchSuggestions] from its [await] on. *)
Definition fetchSuggestions_resume
    (outcome : Completion PantamakAPI.SearchSuggestions) (st : State)
    : State :=
  match outcome with
  | Normal response => setLoading false (setSuggestions (Some response) st)
  | Abrupt err =>
      match name_of err with
      | Some name =>
          setLoading false
            (if negb (String.eqb name "AbortError")
             then setSuggestions None (setError (Some (getErrorMessage err)) st)
             else st)
      | None => setLoading false st
      end
  | Diverged => st
  end.

(** The hook between renders: its state, the pending timer (the query it
    will fetch and the time it is due), the clock, every query
    [fetchSuggestions] has been called with and every query sent to the
    API, oldest first. *)
Record Hook : Type := {
  state : State;
  timer : option (string * Z);
  now : Z;
  fetched : list string;
  requested : list string
}.

Inductive Event : Type :=
| Change (query : string)
| Elapse (ms : Z).

(** The timer callback: [fetchSuggestions(query)]. *)
Definition fire (query : string) (h : Hook) : Hook :=
  let '(st, issued) := fetchSuggestions_start query (state h) in
  {| state := st; timer := None; now := now h;
     fetched := (fetched h ++ [query])%list;
     requested :=
       if issued then (requested h ++ [query])%list else requested h |}.

(** The cleanup of the previous effect, then the effect for the new query. *)
Definition change (debounceMs : Z) (query : string) (h : Hook) : Hook :=
  {| state := abortCurrent (state h);
     timer := Some (query, now h + debounceMs);
     now := now h; fetched := fetched h; requested := requested h |}.

(** Time passes: a timer that comes due fires. *)
Definition elapse (ms : Z) (h : Hook) : Hook :=
  let h' :=
    match timer h with
    | Some (query, due) => if due <=? now h + ms then fire query h else h
    | None => h
    end in
  {| state := state h'; timer := timer h'; now := now h + ms;
     fetched := fetched h'; requested := requested h' |}.

Definition step (debounceMs : Z) (h : Hook) (ev : Event) : Hook :=
  match ev with
  | Change query => change debounceMs query h
  | Elapse ms => elapse ms h
  end.

(** The first render with its effect, then the events. *)
Definition run (debounceMs : Z) (query : string) (events : list Event)
    : Hook :=
  fold_left (step debounceMs) events
    {| state := mount; timer := Some (query, debounceMs); now := 0;
       fetched := []; requested := [] |}.

(** Keystrokes: each a pause and the query it leaves. *)
Definition typing (keys : list (Z * string)) : list Event :=
  flat_map (fun key => [Elapse (fst key); Change (snd key)]) keys.

End UseSearchSuggestions.

(** ** Connectivity: useOnlineStatus (api.ts) and useOfflineStatus (hooks) *)

Inductive WindowEvent : Type :=
| OnlineEvent
| OfflineEvent.

(** [useOnlineStatus]: outside a browser it is [true]; in one, the state
    starts from [navigator.onLine] and follows the window events. *)
Definition useOnlineStatus (isBrowser navigatorOnLine : bool)
    (events : list WindowEvent) : bool :=
  if negb isBrowser then true
  else
    fold_left
      (fun isOnline ev =>
         match ev with
         | OnlineEvent => true
         | OfflineEvent => false
         end)
      events navigatorOnLine.

(** [useOfflineStatus] on its first render: the effect has not run yet. *)
Definition useOfflineStatus_firstRender : bool := false.

(** [useOfflineStatus] once its effect has run: outside a browser the state
    stays [false]; in one, it is set to [!navigator.onLine] and follows the
    window events. *)
Definition useOfflineStatus (isBrowser navigatorOnLine : bool)
    (events : list WindowEvent) : bool :=
  if negb isBrowser then false
  else
    fold_left
      (fun isOffline ev =>
         match ev with
         | OnlineEvent => false
         | OfflineEvent => true
         end)
      events (negb navigatorOnLine).

(** A fetch function of a [UseApi] hook run once per world of [ws], one call
    after the other, from state [st]. *)
Definition fetchEach {D : Type}
    (fetch : World D -> UseApi.UseApiState D -> UseApi.UseApiState D)
    (ws : list (World D)) (st : UseApi.UseApiState D)
    : UseApi.UseApiState D :=
  fold_left (fun st w => fetch w st) ws st.

(** What a hook shows after such a run, in terms of the outcomes of its API
    call: it is no longer loading, its data are those of the last fulfilled
    call (the data it had before when there is none) and its error is the
    message of the last call when that one failed, none otherwise. *)
Definition showsLastOutcome {D : Type}
    (fetch : World D -> UseApi.UseApiState D -> UseApi.UseApiState D)
    (call : World D -> Completion D) : Prop :=
  forall (ws : list (World D)) (st : UseApi.UseApiState D),
    ws <> [] ->
    UseApi.loading (fetchEach fetch ws st) = false
    /\ UseApi.data (fetchEach fetch ws st)
       = UseApi.lastFulfilled (map call ws) (UseApi.data st)
    /\ UseApi.error (fetchEach fetch ws st)
       = UseApi.lastFailure (map call ws).

(** ** The browser page (src/app/page.tsx) and the filter sidebar *)

Module Page.

(** The filter state of the page. *)
Record Filters : Type := {
  searchQuery : string;
  selectedCategory : string;
  selectedCity : string;
  priceRange : Z * Z;
  sortBy : string;
  currentPage : Z
}.

(** [...(cond && { [key]: value })]: the entry when [cond] is truthy. *)
Definition entryWhen (cond : bool) (key : string) (value : ParamValue)
    : list (string * ParamValue) :=
  if cond then [(key, value)] else [].

(** [s] as a condition: the empty string is falsy. *)
Definition truthy (s : string) : bool :=
  match s with
  | EmptyString => false
  | String _ _ => true
  end.

(** [const apiParams = { page, per_page: 20, ...query, ...category,
    ...city, min_price, max_price, sort_by }], by its entries. *)
Definition apiParams (f : Filters) : list (string * ParamValue) :=
  ([("page", PNumber (currentPage f)); ("per_page", PNumber 20)]
   ++ entryWhen (truthy (searchQuery f)) "query" (PString (searchQuery f))
   ++ entryWhen (negb (String.eqb (selectedCategory f) "all")) "category"
        (PString (selectedCategory f))
   ++ entryWhen (negb (String.eqb (selectedCity f) "all")) "city"
        (PString (selectedCity f))
   ++ [("min_price", PNumber (fst (priceRange f)));
       ("max_price", PNumber (snd (priceRange f)));
       ("sort_by", PString (sortBy f))])%list.

(** [productsData?.pagination?.pages || 1] *)
Definition totalPagesOf (pages : option Z) : Z :=
  match pages with
  | Some p => if p =? 0 then 1 else p
  | None => 1
  end.










Section RecentlyViewed.

(** A product, known here by its [id]. *)
Context {Product : Type}.
Variable id : Product -> Z.

(** The update of [recentlyViewed] in [viewProduct]:
    [[product, ...prev.filter(p => p.id !== product.id)].slice(0, 10)]. *)
Definition viewProduct (product : Product) (prev : list Product)
    : list Product :=
  let filtered := filter (fun p => negb (id p =? id product)) prev in
  firstn 10 (product :: filtered).

End RecentlyViewed.

End Page.

Module FilterSidebar.

(** [handleRatingChange] and [handleConditionChange]: the new selection. *)
Definition handleRatingChange (selectedRatings : list string)
    (rating : string) (checked : bool) : list string :=
  if checked then (selectedRatings ++ [rating])%list
  else filter (fun r => negb (String.eqb r rating)) selectedRatings.

Definition handleConditionChange (selectedConditions : list string)
    (condition : string) (checked : bool) : list string :=
  if checked then (selectedConditions ++ [condition])%list
  else filter (fun c => negb (String.eqb c condition)) selectedConditions.

(** [totalActiveFilters] *)
Definition totalActiveFilters
    (activeFilters selectedRatings selectedConditions : list string) : Z :=
  Z.of_nat (List.length activeFilters)
  + Z.of_nat (List.length selectedRatings)
  + Z.of_nat (List.length selectedConditions).

End FilterSidebar.

(** ** More vocabulary: runs of the retry loop, headers *)

(** An attempt whose error the [catch] clause neither rethrows at once nor
    chokes on: it is retried while attempts remain. *)
Definition retried {T : Type} (o : NetOutcome T) : bool :=
  match attemptResult o with
  | Abrupt error =>
      negb (nonRetriable error)
      && match name_of error with
         | Some _ => true
         | None => false
         end
  | _ => false
  end.

(** [o[k]] on an object given by its entries. *)
Fixpoint lookup (o : list (string * string)) (k : string) : option string :=
  match o with
  | [] => None
  | (k', v) :: rest => if String.eqb k' k then Some v else lookup rest k
  end.

(** The value the last entry for [k] gives, as a spread of these entries
    leaves it. *)
Fixpoint lookupLast (o : list (string * string)) (k : string)
    : option string :=
  match o with
  | [] => None
  | (k', v) :: rest =>
      match lookupLast rest k with
      | Some v' => Some v'
      | None => if String.eqb k' k then Some v else None
      end
  end.

(** The sum of a list of delays. *)
Definition total (delays : list Z) : Z := fold_right Z.add 0 delays.

(** * Properties *)

(** Settle a comparison of integers that the context decides. *)
Ltac holds t :=
  replace t with true
    by (symmetry;
        first [apply Z.leb_le | apply Z.ltb_lt | apply Z.eqb_eq]; lia).

Ltac fails t :=
  replace t with false
    by (symmetry;
        first [apply Z.leb_gt | apply Z.ltb_ge | apply Z.eqb_neq]; lia).

Lemma attemptsFrom_S (a : Z) (m : nat) :
  attemptsFrom a (S m) = a :: attemptsFrom (a + 1) m.
Proof.
  unfold attemptsFrom. cbn [seq map]. rewrite Z.add_0_r. f_equal.
  rewrite <- seq_shift, map_map. apply map_ext. intros i. lia.
Qed.

(** ** The retry loop *)

Section RetryLoop.

Context {T : Type}.
Variables (url : string) (options : RequestInit) (retryConfig : RetryConfig).

Lemma tryBlock_eq (w : World T) :
  tryBlock url options w
  = (attemptResult (outcome w (calls w)), issued url options w).
Proof.
  unfold tryBlock, bind, fetch, outcome, issued; simpl.
  destruct (settle w (calls w) (Some TimeoutSignal)) as [r | e]; simpl.
  - destruct (ok r); [reflexivity |].
    destruct (status r <? 500); reflexivity.
  - reflexivity.
Qed.

(** One iteration of the loop, spelled out. *)
Lemma retryLoop_eq (fuel : nat) (attempt : Z) (lastError : option Thrown)
    (w : World T) :
  retryLoop (S fuel) url options retryConfig attempt lastError w
  = if attempt <=? maxRetries retryConfig then
      match attemptResult (outcome w (calls w)) with
      | Normal r => (Normal r, issued url options w)
      | Abrupt error =>
          if nonRetriable error then (Abrupt error, issued url options w)
          else
            match name_of error with
            | None =>
                (Abrupt (TypeError
                   "Cannot read properties of undefined (reading 'name')"),
                 issued url options w)
            | Some _ =>
                if attempt =? maxRetries retryConfig then
                  (Abrupt (classify error), issued url options w)
                else
                  retryLoop fuel url options retryConfig (attempt + 1)
                    (Some (classify error))
                    (backedOff retryConfig attempt (issued url options w))
            end
      | Diverged => (Diverged, issued url options w)
      end
    else throwLast lastError w.
Proof.
  cbn [retryLoop].
  destruct (attempt <=? maxRetries retryConfig); [| reflexivity].
  unfold tryCatch. rewrite tryBlock_eq.
  destruct (attemptResult (outcome w (calls w))) as [r | error |];
    try reflexivity.
  destruct (nonRetriable error); [reflexivity |].
  destruct (name_of error); [| reflexivity].
  destruct (attempt =? maxRetries retryConfig); reflexivity.
Qed.

Lemma calls_issued (w : World T) :
  calls (issued url options w) = S (calls w).
Proof. unfold calls, issued; simpl. rewrite length_app; simpl; lia. Qed.

(** A retriable failure is caught, classified and not rethrown at once. *)
Lemma retriableFailure_caught (o : NetOutcome T) :
  retriableFailure o = true ->
  exists error,
    attemptResult o = Abrupt error /\ nonRetriable error = false
    /\ name_of error <> None.
Proof.
  destruct o as [r | e]; simpl; intros H.
  - apply Z.leb_le in H.
    assert (Hok : ok r = false).
    { unfold ok. apply andb_false_iff; right. apply Z.leb_gt; lia. }
    assert (Hlt : (status r <? 500) = false) by (apply Z.ltb_ge; lia).
    rewrite Hok, Hlt. eexists; split; [reflexivity |]. split.
    + unfold nonRetriable; simpl. rewrite Hlt. apply andb_false_r.
    + discriminate.
  - apply andb_true_iff in H as [He Hn].
    exists e; split; [reflexivity |]. split.
    + now apply negb_true_iff in Hn.
    + destruct e as [[] ? ? ? ? | ? | ? ? ? |]; simpl in *; discriminate.
Qed.

(** The loop when every remaining attempt fails with a retriable error:
    [m+1] more calls, a backoff after each but the last, and the classified
    error of the last attempt is thrown. *)
Lemma retryLoop_all_fail (m : nat) :
  forall (attempt : Z) (lastError : option Thrown) (w : World T),
    maxRetries retryConfig = attempt + Z.of_nat m ->
    (forall k, (k <= m)%nat ->
       retriableFailure (outcome w (calls w + k)) = true) ->
    exists error w',
      retryLoop (S m) url options retryConfig attempt lastError w
      = (Abrupt (classify error), w')
      /\ attemptResult (outcome w (calls w + m)) = Abrupt error
      /\ requests w'
         = (requests w ++ repeat (url, requestInit options) (S m))%list
      /\ sleeps w'
         = (sleeps w
            ++ map (fun i => calculateDelay i retryConfig)
                   (attemptsFrom attempt m))%list.
Proof.
  induction m as [| m IH]; intros attempt lastError w Hmax Hfail.
  - rewrite retryLoop_eq.
    holds (attempt <=? maxRetries retryConfig).
    destruct (retriableFailure_caught _ (Hfail O (Nat.le_refl _)))
      as (error & Hres & Hnr & Hname).
    rewrite Nat.add_0_r in Hres |- *. rewrite Hres, Hnr.
    destruct (name_of error); [| contradiction].
    holds (attempt =? maxRetries retryConfig).
    exists error, (issued url options w). simpl.
    repeat split; [now rewrite app_nil_r].
  - rewrite retryLoop_eq.
    holds (attempt <=? maxRetries retryConfig).
    destruct (retriableFailure_caught _ (Hfail O (Nat.le_0_l _)))
      as (error & Hres & Hnr & Hname).
    rewrite Nat.add_0_r in Hres. rewrite Hres, Hnr.
    destruct (name_of error); [| contradiction].
    fails (attempt =? maxRetries retryConfig).
    set (w1 := backedOff retryConfig attempt (issued url options w)).
    assert (Hcalls : calls w1 = S (calls w)) by apply calls_issued.
    destruct (IH (attempt + 1) (Some (classify error)) w1)
      as (error' & w' & Hrun & Hlast & Hreq & Hsl).
    + lia.
    + intros k Hk. rewrite Hcalls.
      change (outcome w1 (S (calls w) + k))
        with (outcome w (S (calls w) + k)).
      replace (S (calls w) + k)%nat with (calls w + S k)%nat by lia.
      apply Hfail; lia.
    + exists error', w'. split; [exact Hrun |]. split; [| split].
      * rewrite Hcalls in Hlast.
        change (outcome w1 (S (calls w) + m))
          with (outcome w (S (calls w) + m)) in Hlast.
        now replace (calls w + S m)%nat with (S (calls w) + m)%nat by lia.
      * rewrite Hreq. unfold w1; simpl. now rewrite <- app_assoc.
      * rewrite Hsl, attemptsFrom_S. unfold w1; simpl.
        now rewrite <- app_assoc.
Qed.

Lemma attemptResult_settles (o : NetOutcome T) :
  attemptResult o <> Diverged.
Proof.
  destruct o as [r | e]; simpl; [| discriminate].
  destruct (ok r); [discriminate |].
  destruct (status r <? 500); discriminate.
Qed.

(** Whatever the network does, the loop ends after at least one and at most
    [m+1] calls, all of them the same request. *)
Lemma retryLoop_total (m : nat) :
  forall (attempt : Z) (lastError : option Thrown) (w : World T),
    maxRetries retryConfig = attempt + Z.of_nat m ->
    fst (retryLoop (S m) url options retryConfig attempt lastError w)
    <> Diverged
    /\ exists j,
         (1 <= j <= S m)%nat
         /\ requests
              (snd (retryLoop (S m) url options retryConfig attempt
                              lastError w))
            = (requests w ++ repeat (url, requestInit options) j)%list.
Proof.
  induction m as [| m IH]; intros attempt lastError w Hmax;
    rewrite retryLoop_eq;
    holds (attempt <=? maxRetries retryConfig);
    pose proof (attemptResult_settles (outcome w (calls w))) as Hs;
    (destruct (attemptResult (outcome w (calls w))) as [r | error |];
       [| | contradiction]);
    try (split; [discriminate | exists 1%nat; split; [lia | reflexivity]]);
    (destruct (nonRetriable error);
       [split; [discriminate | exists 1%nat; split; [lia | reflexivity]] |]);
    (destruct (name_of error);
       [| split; [discriminate | exists 1%nat; split; [lia | reflexivity]]]).
  - holds (attempt =? maxRetries retryConfig).
    split; [discriminate | exists 1%nat; split; [lia | reflexivity]].
  - fails (attempt =? maxRetries retryConfig).
    destruct (IH (attempt + 1) (Some (classify error))
                 (backedOff retryConfig attempt (issued url options w)))
      as (Hnd & j & Hj & Hreq); [lia |].
    split; [exact Hnd |]. exists (S j). split; [lia |].
    rewrite Hreq. simpl. now rewrite <- app_assoc.
Qed.

(** [fetchWithRetry] always ends. *)
Lemma fetchWithRetry_total (w : World T) :
  fst (fetchWithRetry url options retryConfig w) <> Diverged.
Proof.
  unfold fetchWithRetry.
  destruct (Z.ltb_spec (maxRetries retryConfig) 0) as [Hneg | Hpos].
  - replace (Z.to_nat (maxRetries retryConfig + 1)) with O by lia.
    cbn [retryLoop].
    fails (0 <=? maxRetries retryConfig).
    discriminate.
  - replace (Z.to_nat (maxRetries retryConfig + 1))
      with (S (Z.to_nat (maxRetries retryConfig))) by lia.
    apply retryLoop_total. lia.
Qed.

(** With a budget of at least zero, at least one call is made. *)
Lemma fetchWithRetry_calls (w : World T) :
  0 <= maxRetries retryConfig ->
  exists j,
    (1 <= j)%nat
    /\ requests (snd (fetchWithRetry url options retryConfig w))
       = (requests w ++ repeat (url, requestInit options) j)%list.
Proof.
  intros Hpos. unfold fetchWithRetry.
  replace (Z.to_nat (maxRetries retryConfig + 1))
    with (S (Z.to_nat (maxRetries retryConfig))) by lia.
  destruct (retryLoop_total (Z.to_nat (maxRetries retryConfig)) 0 None w)
    as (_ & j & Hj & Hreq); [lia |].
  exists j. split; [lia | exact Hreq].
Qed.

(** The caller's signal never reaches [fetch]: its history changes nothing
    in the run. *)
Lemma retryLoop_ignores_caller (fuel : nat) :
  forall (attempt : Z) (lastError : option Thrown) (w : World T)
         (f : nat -> bool),
    retryLoop fuel url options retryConfig attempt lastError
              (withCallerAborts f w)
    = (fst (retryLoop fuel url options retryConfig attempt lastError w),
       withCallerAborts f
         (snd (retryLoop fuel url options retryConfig attempt lastError w))).
Proof.
  induction fuel as [| fuel IH]; intros attempt lastError w f.
  - cbn [retryLoop].
    destruct (attempt <=? maxRetries retryConfig); [reflexivity |].
    destruct lastError; reflexivity.
  - rewrite !retryLoop_eq.
    destruct (attempt <=? maxRetries retryConfig);
      [| destruct lastError; reflexivity].
    change (outcome (withCallerAborts f w) (calls (withCallerAborts f w)))
      with (outcome w (calls w)).
    destruct (attemptResult (outcome w (calls w))) as [r | error |];
      try reflexivity.
    destruct (nonRetriable error); [reflexivity |].
    destruct (name_of error); [| reflexivity].
    destruct (attempt =? maxRetries retryConfig); [reflexivity |].
    apply (IH (attempt + 1) (Some (classify error))
              (backedOff retryConfig attempt (issued url options w)) f).
Qed.

End RetryLoop.

(** ** fetchWithRetry *)

(** C1.  Under a policy with [maxRetries = n >= 0], when each of the [n+1]
    attempts fails with a retriable error, [fetchWithRetry] issues exactly
    [n+1] calls, sleeps [calculateDelay i] after each attempt [i < n], and
    throws the classified error of the last attempt: the [SERVER_ERROR]
    [APIError] of a 5xx response, the [NetworkError] wrapping a transport
    failure, the error itself when it is of neither kind. *)
Theorem fetchWithRetry_exhausts_retries :
  forall (T : Type) (url : string) (options : RequestInit)
         (retryConfig : RetryConfig) (w : World T),
    0 <= maxRetries retryConfig ->
    (forall k, (k <= Z.to_nat (maxRetries retryConfig))%nat ->
       retriableFailure (outcome w (calls w + k)) = true) ->
    let n := Z.to_nat (maxRetries retryConfig) in
    let run := fetchWithRetry url options retryConfig w in
    let last := outcome w (calls w + n) in
    calls (snd run) = (calls w + (n + 1))%nat
    /\ (exists error,
          attemptResult last = Abrupt error
          /\ fst run = Abrupt (classify error))
    /\ (forall r, last = Resolved r ->
          fst run
          = Abrupt (APIError ("Server error: " ++ numberToString (status r))
                             (Some (status r)) (Some "SERVER_ERROR")
                             UndefinedValue))
    /\ (forall e, last = Rejected e -> isNetworkFailure e = true ->
          fst run
          = Abrupt (NetworkError
                      (Some "Unable to connect to the server. Please check your internet connection.")
                      e))
    /\ (forall e, last = Rejected e -> isNetworkFailure e = false ->
          fst run = Abrupt e)
    /\ sleeps (snd run)
       = (sleeps w
          ++ map (fun i => calculateDelay i retryConfig)
                 (attemptsFrom 0 n))%list.
Proof.
  intros T url options retryConfig w Hpos Hfail n run last.
  destruct (retryLoop_all_fail url options retryConfig n 0 None w)
    as (error & w' & Hrun & Hlast & Hreq & Hsl);
    [unfold n; lia | exact Hfail |].
  assert (Erun : run = (Abrupt (classify error), w')).
  { unfold run, fetchWithRetry.
    replace (Z.to_nat (maxRetries retryConfig + 1)) with (S n)
      by (unfold n; lia).
    exact Hrun. }
  fold last in Hlast. rewrite Erun; simpl.
  pose proof (Hfail n (Nat.le_refl _)) as Hn. fold last in Hn.
  split; [| split; [| split; [| split; [| split]]]].
  - unfold calls. rewrite Hreq, length_app, repeat_length. lia.
  - exists error. split; [exact Hlast | reflexivity].
  - intros r Hr. rewrite Hr in Hlast, Hn. simpl in Hlast, Hn.
    apply Z.leb_le in Hn.
    replace (ok r) with false in Hlast
      by (symmetry; unfold ok; apply andb_false_iff; right;
          apply Z.leb_gt; lia).
    replace (status r <? 500) with false in Hlast
      by (symmetry; apply Z.ltb_ge; lia).
    injection Hlast as <-. reflexivity.
  - intros e He Hnet. rewrite He in Hlast. simpl in Hlast.
    injection Hlast as <-. unfold classify. now rewrite Hnet.
  - intros e He Hnet. rewrite He in Hlast. simpl in Hlast.
    injection Hlast as <-. unfold classify. now rewrite Hnet.
  - exact Hsl.
Qed.

Lemma fetchWithRetry_exhausts_retries_witness :
  calls (snd (fetchWithRetry "/products" noOptions DEFAULT_RETRY_CONFIG
                             alwaysOffline)) = 4%nat
  /\ fst (fetchWithRetry "/products" noOptions DEFAULT_RETRY_CONFIG
                         alwaysOffline)
     = Abrupt (NetworkError
                 (Some "Unable to connect to the server. Please check your internet connection.")
                 (TypeError "Failed to fetch"))
  /\ sleeps (snd (fetchWithRetry "/products" noOptions DEFAULT_RETRY_CONFIG
                                 alwaysOffline)) = [1000; 2000; 4000].
Proof.
  assert (Hpos : 0 <= maxRetries DEFAULT_RETRY_CONFIG) by (simpl; lia).
  assert (Hfail : forall k,
             (k <= Z.to_nat (maxRetries DEFAULT_RETRY_CONFIG))%nat ->
             retriableFailure (outcome alwaysOffline (calls alwaysOffline + k))
             = true) by (intros k _; reflexivity).
  destruct (fetchWithRetry_exhausts_retries unit "/products" noOptions
              DEFAULT_RETRY_CONFIG alwaysOffline Hpos Hfail)
    as (Hcalls & _ & _ & Hnet & _ & Hsleeps).
  split; [exact Hcalls |].
  split; [apply (Hnet (TypeError "Failed to fetch")); reflexivity |].
  exact Hsleeps.
Defined.

(** C4.  Under any policy with [maxRetries >= 0], when the first attempt gets
    a response with a status in [400,499], [fetchWithRetry] throws the
    [HTTP_ERROR] [APIError] of that response after this single call, without
    any backoff. *)
Theorem fetchWithRetry_client_error_once :
  forall (T : Type) (url : string) (options : RequestInit)
         (retryConfig : RetryConfig) (w : World T) (r : Response T),
    0 <= maxRetries retryConfig ->
    outcome w (calls w) = Resolved r ->
    400 <= status r <= 499 ->
    let run := fetchWithRetry url options retryConfig w in
    fst run
    = Abrupt (APIError ("HTTP error! status: " ++ numberToString (status r))
                       (Some (status r)) (Some "HTTP_ERROR") UndefinedValue)
    /\ calls (snd run) = (calls w + 1)%nat
    /\ requests (snd run) = (requests w ++ [(url, requestInit options)])%list
    /\ sleeps (snd run) = sleeps w.
Proof.
  intros T url options retryConfig w r Hpos Hout Hst run.
  unfold run, fetchWithRetry.
  replace (Z.to_nat (maxRetries retryConfig + 1))
    with (S (Z.to_nat (maxRetries retryConfig))) by lia.
  rewrite retryLoop_eq, Hout.
  holds (0 <=? maxRetries retryConfig).
  assert (Hres : attemptResult (Resolved r)
                 = Abrupt (APIError
                             ("HTTP error! status: "
                              ++ numberToString (status r))
                             (Some (status r)) (Some "HTTP_ERROR")
                             UndefinedValue)).
  { cbn [attemptResult].
    replace (ok r) with false
      by (symmetry; unfold ok; apply andb_false_iff; right;
          apply Z.leb_gt; lia).
    holds (status r <? 500).
    reflexivity. }
  assert (Hnr : nonRetriable
                  (APIError ("HTTP error! status: " ++ numberToString (status r))
                            (Some (status r)) (Some "HTTP_ERROR")
                            UndefinedValue) = true).
  { unfold nonRetriable; simpl. apply andb_true_iff; split.
    - apply negb_true_iff, Z.eqb_neq; lia.
    - apply Z.ltb_lt; lia. }
  rewrite Hres.
  rewrite Hnr. simpl. repeat split.
  unfold calls; simpl. rewrite length_app; simpl; lia.
Qed.

Lemma fetchWithRetry_client_error_once_witness :
  fst (fetchWithRetry "/products/7" noOptions DEFAULT_RETRY_CONFIG
                      (alwaysStatus 404))
  = Abrupt (APIError "HTTP error! status: 404" (Some 404) (Some "HTTP_ERROR")
                     UndefinedValue)
  /\ calls (snd (fetchWithRetry "/products/7" noOptions DEFAULT_RETRY_CONFIG
                                (alwaysStatus 404))) = 1%nat.
Proof.
  assert (Hpos : 0 <= maxRetries DEFAULT_RETRY_CONFIG) by (simpl; lia).
  assert (Hst : 400 <= 404 <= 499) by lia.
  destruct (fetchWithRetry_client_error_once unit "/products/7" noOptions
              DEFAULT_RETRY_CONFIG (alwaysStatus 404)
              {| status := 404; body := Malformed |} Hpos eq_refl Hst)
    as (Hres & Hcalls & _).
  split; [exact Hres | exact Hcalls].
Defined.

(** C5.  For every policy and every attempt index [i >= 0] the backoff delay
    is [min (baseDelay * backoffMultiplier ^ i) maxDelay]; with base 1000,
    multiplier 2 and cap 10000 the first five delays are 1000, 2000, 4000,
    8000 and 10000. *)
Theorem calculateDelay_schedule :
  forall (config : RetryConfig) (i : Z),
    0 <= i ->
    calculateDelay i config
    = Z.min (baseDelay config * backoffMultiplier config ^ i)
            (maxDelay config)
    /\ calculateDelay i config <= maxDelay config
    /\ map (fun j =>
              calculateDelay j
                {| maxRetries := maxRetries config; baseDelay := 1000;
                   maxDelay := 10000; backoffMultiplier := 2 |})
           [0; 1; 2; 3; 4]
       = [1000; 2000; 4000; 8000; 10000].
Proof.
  intros config i _. split; [reflexivity |]. split.
  - unfold calculateDelay. apply Z.le_min_r.
  - reflexivity.
Qed.

Lemma calculateDelay_schedule_witness :
  calculateDelay 4 DEFAULT_RETRY_CONFIG = 10000
  /\ calculateDelay 3 DEFAULT_RETRY_CONFIG = 8000.
Proof.
  assert (H4 : 0 <= 4) by lia.
  assert (H3 : 0 <= 3) by lia.
  destruct (calculateDelay_schedule DEFAULT_RETRY_CONFIG 4 H4) as (E4 & _).
  destruct (calculateDelay_schedule DEFAULT_RETRY_CONFIG 3 H3) as (E3 & _).
  split; [rewrite E4 | rewrite E3]; reflexivity.
Defined.

(** Every call of a run is the same request, and it carries the signal of
    the timeout controller. *)
Lemma fetchWithRetry_requests :
  forall (T : Type) (url : string) (options : RequestInit)
         (retryConfig : RetryConfig) (w : World T),
  exists j,
    requests (snd (fetchWithRetry url options retryConfig w))
    = (requests w ++ repeat (url, requestInit options) j)%list.
Proof.
  intros T url options retryConfig w.
  destruct (Z.ltb_spec (maxRetries retryConfig) 0) as [Hneg | Hpos].
  - exists O. unfold fetchWithRetry.
    replace (Z.to_nat (maxRetries retryConfig + 1)) with O by lia.
    cbn [retryLoop].
    fails (0 <=? maxRetries retryConfig).
    simpl. now rewrite app_nil_r.
  - destruct (fetchWithRetry_calls url options retryConfig w Hpos)
      as (j & _ & Hreq).
    now exists j.
Qed.

(** A signal of the caller in [options], aborted at once, is not seen at
    all: the call is retried to the end of the budget and the server error
    is thrown. *)
Lemma cancellation_not_propagated :
  ~ cancellationPropagates "/products" callerOptions DEFAULT_RETRY_CONFIG
      cancelledWorld
  /\ fst (fetchWithRetry "/products" callerOptions DEFAULT_RETRY_CONFIG
                         cancelledWorld)
     = Abrupt (APIError "Server error: 503" (Some 503) (Some "SERVER_ERROR")
                        UndefinedValue)
  /\ calls (snd (fetchWithRetry "/products" callerOptions
                                DEFAULT_RETRY_CONFIG cancelledWorld))
     = 4%nat.
Proof.
  assert (E : fst (fetchWithRetry "/products" callerOptions
                                  DEFAULT_RETRY_CONFIG cancelledWorld)
              = Abrupt (APIError "Server error: 503" (Some 503)
                                 (Some "SERVER_ERROR") UndefinedValue))
    by reflexivity.
  split; [| split; [exact E | reflexivity]].
  intros H. destruct (H eq_refl eq_refl eq_refl) as [Hres _].
  rewrite E in Hres. discriminate Hres.
Qed.

(** [fetchWithRetry] gives [fetch] the signal of its own timeout controller
    in place of any signal of the caller, so the caller's aborts change
    nothing in the run; when every attempt of a policy with
    [maxRetries = n >= 0] is cut by the timeout, [n+1] calls are made and a
    [NetworkError] wrapping the abort is thrown. *)
Theorem fetchWithRetry_abort_is_network_failure :
  forall (T : Type) (url : string) (options : RequestInit)
         (retryConfig : RetryConfig) (w : World T),
    let run := fetchWithRetry url options retryConfig w in
    (forall f,
       fetchWithRetry url options retryConfig (withCallerAborts f w)
       = (fst run, withCallerAborts f (snd run)))
    /\ (forall k, (calls w <= k < calls (snd run))%nat ->
          option_map (fun req => signal (snd req))
                     (nth_error (requests (snd run)) k)
          = Some (Some TimeoutSignal))
    /\ (0 <= maxRetries retryConfig ->
        (forall k, (k <= Z.to_nat (maxRetries retryConfig))%nat ->
           outcome w (calls w + k) = Rejected AbortError) ->
        calls (snd run)
        = (calls w + (Z.to_nat (maxRetries retryConfig) + 1))%nat
        /\ fst run
           = Abrupt (NetworkError
                       (Some "Unable to connect to the server. Please check your internet connection.")
                       AbortError)).
Proof.
  intros T url options retryConfig w run.
  split; [| split].
  - intros f. apply retryLoop_ignores_caller.
  - intros k Hk.
    destruct (fetchWithRetry_requests T url options retryConfig w)
      as (j & Hreq).
    fold run in Hreq. unfold calls in Hk. rewrite Hreq in Hk |- *.
    rewrite length_app, repeat_length in Hk.
    rewrite nth_error_app2 by lia.
    destruct (nth_error (repeat (url, requestInit options) j)
                        (k - List.length (requests w))) as [req |] eqn:E.
    + apply nth_error_In, repeat_spec in E. subst req. reflexivity.
    + apply nth_error_None in E. rewrite repeat_length in E. lia.
  - intros Hpos Habort.
    destruct (retryLoop_all_fail url options retryConfig
                (Z.to_nat (maxRetries retryConfig)) 0 None w)
      as (error & w' & Hrun & Hlast & Hreq & _).
    + lia.
    + intros k Hk. now rewrite (Habort k Hk).
    + assert (Erun : run = (Abrupt (classify error), w')).
      { unfold run, fetchWithRetry.
        replace (Z.to_nat (maxRetries retryConfig + 1))
          with (S (Z.to_nat (maxRetries retryConfig))) by lia.
        exact Hrun. }
      rewrite (Habort _ (Nat.le_refl _)) in Hlast. simpl in Hlast.
      injection Hlast as <-. rewrite Erun; simpl. split; [| reflexivity].
      unfold calls. rewrite Hreq, length_app, repeat_length. lia.
Qed.

Lemma fetchWithRetry_abort_is_network_failure_witness :
  calls (snd (fetchWithRetry "/cities" noOptions DEFAULT_RETRY_CONFIG
                             alwaysTimedOut)) = 4%nat
  /\ fst (fetchWithRetry "/cities" noOptions DEFAULT_RETRY_CONFIG
                         alwaysTimedOut)
     = Abrupt (NetworkError
                 (Some "Unable to connect to the server. Please check your internet connection.")
                 AbortError).
Proof.
  assert (Hpos : 0 <= maxRetries DEFAULT_RETRY_CONFIG) by (simpl; lia).
  assert (Habort : forall k,
             (k <= Z.to_nat (maxRetries DEFAULT_RETRY_CONFIG))%nat ->
             outcome alwaysTimedOut (calls alwaysTimedOut + k)
             = Rejected AbortError) by (intros k _; reflexivity).
  destruct (fetchWithRetry_abort_is_network_failure unit "/cities" noOptions
              DEFAULT_RETRY_CONFIG alwaysTimedOut) as (_ & _ & Hall).
  exact (Hall Hpos Habort).
Defined.

(** C2.  The one caller that cancels is the products hook: issuing request B
    aborts the controller of the pending request A ("Cancel previous
    request"), with no timeout involved.  The abort does not propagate: A's
    call, seen with the caller's signal aborted throughout, still makes its
    four attempts with the three backoffs and throws the server error, which
    the hook then shows.  A signal handed over in [options] fares the same,
    the controller's own signal taking its place. *)
Theorem caller_abort_is_not_propagated :
  let A := [("page", PNumber 1)] in
  let B := [("page", PNumber 2)] in
  let h :=
    UseProducts.run true
      [UseProducts.Fetch A alwaysDown;
       UseProducts.Fetch B (serves "page 2")] in
  let cancelled :=
    match nth_error (UseProducts.inFlight h) 0 with
    | Some request =>
        UseProducts.seenBy (UseProducts.controllers (UseProducts.state h))
                           request
    | None => alwaysDown
    end in
  let settled :=
    UseProducts.run true
      [UseProducts.Fetch A alwaysDown;
       UseProducts.Fetch B (serves "page 2"); UseProducts.Settle 0%nat] in
  UseProducts.controllers (UseProducts.state h) = [true; false]
  /\ (forall k, callerAborts cancelled k = true
                /\ timerFires cancelled k = false)
  /\ fst (PantamakAPI.getProducts A cancelled)
     = Abrupt (APIError "Server error: 503" (Some 503) (Some "SERVER_ERROR")
                        UndefinedValue)
  /\ calls (snd (PantamakAPI.getProducts A cancelled)) = 4%nat
  /\ sleeps (snd (PantamakAPI.getProducts A cancelled))
     = [1000; 2000; 4000]
  /\ UseProducts.error (UseProducts.state settled)
     = Some "Server error. Please try again in a few moments."
  /\ fst (fetchWithRetry "/products" callerOptions DEFAULT_RETRY_CONFIG
                         cancelledWorld)
     = Abrupt (APIError "Server error: 503" (Some 503) (Some "SERVER_ERROR")
                        UndefinedValue)
  /\ calls (snd (fetchWithRetry "/products" callerOptions
                                DEFAULT_RETRY_CONFIG cancelledWorld))
     = 4%nat.
Proof.
  cbv zeta. split; [reflexivity |].
  split; [intros k; split; reflexivity |].
  repeat split; vm_compute; reflexivity.
Qed.

(** ** isRetriableError *)

(** C10.  [isRetriableError e] holds exactly when [e] is a [NetworkError], or
    an [APIError] whose code is [SERVER_ERROR], whose status is undefined or
    whose status is at least 500.  It is false on everything that is not an
    [APIError], a raw [TypeError] included, although [fetchWithRetry] does
    retry an attempt that failed with a raw [TypeError] when the budget
    allows. *)
Theorem isRetriableError_spec :
  forall (e : Thrown),
    (isRetriableError e = true <->
     instanceof_NetworkError e = true
     \/ (instanceof_APIError e = true
         /\ (code_of e = Some "SERVER_ERROR"
             \/ status_of e = None
             \/ exists s, status_of e = Some s /\ 500 <= s)))
    /\ (instanceof_APIError e = false -> isRetriableError e = false)
    /\ (forall (T : Type) (url : string) (options : RequestInit)
               (retryConfig : RetryConfig) (w : World T) (message : string),
          e = TypeError message ->
          1 <= maxRetries retryConfig ->
          outcome w (calls w) = Rejected e ->
          isRetriableError e = false
          /\ (calls w + 2
              <= calls (snd (fetchWithRetry url options retryConfig w)))%nat).
Proof.
  intros e. split; [| split].
  - unfold isRetriableError.
    destruct e as [[] message st code orig | | |]; simpl;
      try (split; [discriminate | intros [H | [H _]]; discriminate]).
    + rewrite orb_true_iff. split.
      * intros [Hc | Hs]; right; split; try reflexivity.
        -- left. destruct code as [c |]; [| discriminate].
           simpl in Hc. apply String.eqb_eq in Hc. now subst.
        -- destruct st as [s |]; [| now right; left].
           right; right. exists s. split; [reflexivity |].
           now apply Z.leb_le.
      * intros [H | [_ [Hc | [Hs | (s & Hs & Hge)]]]]; [discriminate | | |].
        -- left. rewrite Hc. reflexivity.
        -- right. now rewrite Hs.
        -- right. rewrite Hs. now apply Z.leb_le.
    + split; [intros _; now left | reflexivity].
  - unfold isRetriableError.
    destruct e as [[] ? ? ? ? | | |]; simpl; intros H;
      try discriminate; reflexivity.
  - intros T url options retryConfig w message -> Hmax Hout.
    split; [reflexivity |].
    unfold fetchWithRetry.
    replace (Z.to_nat (maxRetries retryConfig + 1))
      with (S (S (Z.to_nat (maxRetries retryConfig - 1)))) by lia.
    rewrite retryLoop_eq, Hout.
    holds (0 <=? maxRetries retryConfig).
    fails (0 =? maxRetries retryConfig).
    cbn [attemptResult nonRetriable instanceof_APIError andb name_of].
    destruct (retryLoop_total url options retryConfig
                (Z.to_nat (maxRetries retryConfig - 1)) (0 + 1)
                (Some (classify (TypeError message)))
                (backedOff retryConfig 0 (issued url options w)))
      as (_ & j & Hj & Hreq); [lia |].
    unfold calls. rewrite Hreq. simpl.
    rewrite !length_app, repeat_length. simpl. lia.
Qed.

Lemma isRetriableError_spec_witness :
  isRetriableError (TypeError "Failed to fetch") = false
  /\ (2 <= calls (snd (fetchWithRetry "/stats" noOptions DEFAULT_RETRY_CONFIG
                                      alwaysOffline)))%nat.
Proof.
  assert (Hmax : 1 <= maxRetries DEFAULT_RETRY_CONFIG) by (simpl; lia).
  destruct (isRetriableError_spec (TypeError "Failed to fetch"))
    as (_ & _ & Hretry).
  exact (Hretry unit "/stats" noOptions DEFAULT_RETRY_CONFIG alwaysOffline
                "Failed to fetch" eq_refl Hmax eq_refl).
Defined.

(** ** apiRequest *)

Lemma apiRequestBody_settles :
  forall (T : Type) (url : string) (options : RequestInit) (w : World T),
    fst (apiRequestBody url options w) <> Diverged
    /\ snd (apiRequestBody url options w)
       = snd (fetchWithRetry url options DEFAULT_RETRY_CONFIG w).
Proof.
  intros T url options w. unfold apiRequestBody, bind.
  pose proof (fetchWithRetry_total url options DEFAULT_RETRY_CONFIG w) as Ht.
  destruct (fetchWithRetry url options DEFAULT_RETRY_CONFIG w)
    as [[response | e |] w']; simpl in *.
  - destruct (body response) as [| | [] data error]; simpl;
      split; try discriminate; reflexivity.
  - split; [discriminate | reflexivity].
  - contradiction.
Qed.

(** [apiRequest] touches the world only through [fetchWithRetry]. *)
Lemma apiRequest_world :
  forall (T : Type) (endpoint : string) (options : RequestInit)
         (w : World T),
    snd (apiRequest endpoint options w)
    = snd (fetchWithRetry (API_BASE_URL w ++ endpoint) options
                          DEFAULT_RETRY_CONFIG w).
Proof.
  intros T endpoint options w.
  destruct (apiRequestBody_settles T (API_BASE_URL w ++ endpoint) options w)
    as [_ Hw].
  rewrite <- Hw. unfold apiRequest, tryCatch.
  destruct (apiRequestBody (API_BASE_URL w ++ endpoint) options w)
    as [[a | e |] w']; simpl; try reflexivity.
  destruct (instanceof_APIError e); reflexivity.
Qed.

Lemma apiRequest_settles :
  forall (T : Type) (endpoint : string) (options : RequestInit)
         (w : World T),
    fst (apiRequest endpoint options w) <> Diverged.
Proof.
  intros T endpoint options w.
  destruct (apiRequestBody_settles T (API_BASE_URL w ++ endpoint) options w)
    as [Hs _].
  unfold apiRequest, tryCatch.
  destruct (apiRequestBody (API_BASE_URL w ++ endpoint) options w)
    as [[a | e |] w']; simpl in *; [discriminate | | contradiction].
  destruct (instanceof_APIError e); discriminate.
Qed.

(** Every API operation issues at least one call, to its own URL. *)
Lemma apiRequest_calls :
  forall (T : Type) (endpoint : string) (options : RequestInit)
         (w : World T),
  exists j,
    (1 <= j)%nat
    /\ requests (snd (apiRequest endpoint options w))
       = (requests w
          ++ repeat ((API_BASE_URL w ++ endpoint)%string,
                     requestInit options) j)%list.
Proof.
  intros T endpoint options w. rewrite apiRequest_world.
  apply fetchWithRetry_calls. simpl; lia.
Qed.



(** ** The operations *)

Lemma codePoints_without_surrogates (s : JsString) :
  Forall (fun u => isHighSurrogate u = false /\ isLowSurrogate u = false) s ->
  codePoints s = Some s.
Proof.
  induction s as [| u s IH]; intros H; [reflexivity |].
  inversion H as [| u' s' [Hh Hl] Hs]; subst.
  cbn [codePoints]. rewrite Hh, Hl, (IH Hs). reflexivity.
Qed.

(** C9, counterexample.  A query of two code units, each a high surrogate
    without its low one: it is not shorter than two, yet no call is made;
    [encodeURIComponent] throws [URIError] before [apiRequest] is
    entered. *)
Lemma getSearchSuggestions_unpaired_surrogate :
  (2 <= List.length unpairedSurrogates)%nat
  /\ PantamakAPI.getSearchSuggestions unpairedSurrogates
       nullSuggestions
     = (Abrupt (OtherError "URIError" None "URI malformed"),
        nullSuggestions)
  /\ ~ (calls nullSuggestions
        < calls (snd (PantamakAPI.getSearchSuggestions
                        unpairedSurrogates nullSuggestions)))%nat.
Proof.
  split; [simpl; lia |]. split; [reflexivity |].
  simpl. lia.
Qed.

(** C9, amended.  On a query shorter than two code units
    [getSearchSuggestions] returns the empty structure and leaves the world
    as it is: no call is made.  On a query of two or more code units that
    [encodeURIComponent] accepts, which it does exactly when no surrogate in
    it is unpaired (so whenever it holds no surrogate at all), it is the
    [apiRequest] for the suggestions endpoint with the encoded query, which
    issues at least one call.  On the queries [encodeURIComponent] rejects
    the [URIError] is thrown and the world is left as it is. *)
Theorem getSearchSuggestions_short_circuit :
  forall (query : JsString) (w : World PantamakAPI.SearchSuggestions),
    ((List.length query < 2)%nat ->
       PantamakAPI.getSearchSuggestions query w
       = (Normal {| PantamakAPI.shops := []; PantamakAPI.products := [];
                    PantamakAPI.categories := [] |}, w))
    /\ ((2 <= List.length query)%nat ->
        forall encoded,
          encodeURIComponent query = Some encoded ->
          PantamakAPI.getSearchSuggestions query w
          = apiRequest ("/search/suggestions?query=" ++ encoded) noOptions w
          /\ (calls w
              < calls (snd (PantamakAPI.getSearchSuggestions query w)))%nat)
    /\ ((2 <= List.length query)%nat ->
        encodeURIComponent query = None ->
        PantamakAPI.getSearchSuggestions query w
        = (Abrupt (OtherError "URIError" None "URI malformed"), w))
    /\ (encodeURIComponent query = None <-> codePoints query = None)
    /\ (Forall (fun u => isHighSurrogate u = false
                         /\ isLowSurrogate u = false) query ->
        encodeURIComponent query <> None).
Proof.
  intros query w. unfold PantamakAPI.getSearchSuggestions.
  split; [| split; [| split; [| split]]].
  - intros Hshort.
    holds (Z.of_nat (List.length query) <? 2).
    reflexivity.
  - intros Hlong encoded Henc.
    fails (Z.of_nat (List.length query) <? 2).
    rewrite Henc. split; [reflexivity |].
    destruct (apiRequest_calls _ ("/search/suggestions?query=" ++ encoded)
                noOptions w) as (j & Hj & Hreq).
    unfold calls. rewrite Hreq, length_app, repeat_length. lia.
  - intros Hlong Henc.
    fails (Z.of_nat (List.length query) <? 2).
    rewrite Henc. reflexivity.
  - unfold encodeURIComponent.
    destruct (codePoints query); simpl; split; intros H;
      try discriminate H; reflexivity.
  - intros Hclean. unfold encodeURIComponent.
    rewrite (codePoints_without_surrogates query Hclean). discriminate.
Qed.

Lemma getSearchSuggestions_short_circuit_witness :
  requests (snd (PantamakAPI.getSearchSuggestions (jsString "a")
                   (answers JsonNull)))
  = []
  /\ (0 < calls (snd (PantamakAPI.getSearchSuggestions (jsString "ab")
                        (answers JsonNull))))%nat.
Proof.
  destruct (getSearchSuggestions_short_circuit (jsString "a")
              (answers JsonNull)) as [Hshort _].
  destruct (getSearchSuggestions_short_circuit (jsString "ab")
              (answers JsonNull)) as (_ & Hlong & _).
  split.
  - rewrite Hshort by (simpl; lia). reflexivity.
  - destruct (Hlong ltac:(simpl; lia) "ab" eq_refl) as [_ Hcalls].
    exact Hcalls.
Defined.

(** ** Query strings *)


(** The loop appends to what is there already, in the order of the
    entries. *)
Lemma buildSearchParams_fold (params : list (string * ParamValue)) :
  forall (acc : URLSearchParams),
    fold_left
      (fun searchParams entry =>
         let '(key, value) := entry in
         if retained value then append searchParams key (toStringValue value)
         else searchParams)
      params acc
    = (acc
       ++ map (fun entry => (fst entry, toStringValue (snd entry)))
              (filter (fun entry => retained (snd entry)) params))%list.
Proof.
  induction params as [| [key value] params IH]; intros acc; simpl.
  - now rewrite app_nil_r.
  - rewrite IH. destruct (retained value); simpl; [| reflexivity].
    unfold append. now rewrite <- app_assoc.
Qed.


(** ** The initial-data hook *)

(** C7.  Each of the three calls of [fetchInitialData] settles, and after it
    the overall error is set exactly when the three were all rejected.  When
    the products call is fulfilled and
    the two others are rejected, [products] holds the value, [categories]
    and [cities] are what they were ([null] on the first load) and there is
    no error. *)
Theorem fetchInitialData_partial_failure :
  forall (P C Ci : Type) (wp : World P) (wc : World C) (wci : World Ci)
         (st : UseInitialData.State P C Ci),
    let productsResponse :=
      fst (PantamakAPI.getProducts
             [("page", PNumber 1); ("per_page", PNumber 20)] wp) in
    let categoriesResponse := fst (PantamakAPI.getProductCategories wc) in
    let citiesResponse := fst (PantamakAPI.getCities wci) in
    let st' := UseInitialData.fetchInitialData wp wc wci st in
    (productsResponse <> Diverged /\ categoriesResponse <> Diverged
     /\ citiesResponse <> Diverged)
    /\ (UseInitialData.error st' <> None
     <-> (exists e1 e2 e3,
            productsResponse = Abrupt e1 /\ categoriesResponse = Abrupt e2
            /\ citiesResponse = Abrupt e3))
    /\ (forall value e2 e3,
          productsResponse = Normal value ->
          categoriesResponse = Abrupt e2 ->
          citiesResponse = Abrupt e3 ->
          UseInitialData.products st' = Some value
          /\ UseInitialData.categories st' = UseInitialData.categories st
          /\ UseInitialData.cities st' = UseInitialData.cities st
          /\ UseInitialData.error st' = None
          /\ UseInitialData.loading st' = false
          /\ (st = UseInitialData.mount ->
              UseInitialData.categories st' = None
              /\ UseInitialData.cities st' = None)).
Proof.
  intros P C Ci wp wc wci st productsResponse categoriesResponse
         citiesResponse st'.
  unfold st', UseInitialData.fetchInitialData.
  fold productsResponse categoriesResponse citiesResponse.
  unfold UseInitialData.fetchInitialData_resume.
  split; [| split].
  - repeat split; apply apiRequest_settles.
  - destruct productsResponse as [v1 | e1 |],
             categoriesResponse as [v2 | e2 |],
             citiesResponse as [v3 | e3 |]; simpl;
      try (split;
           [intros H; now contradiction H
           | intros (x1 & x2 & x3 & H1 & H2 & H3); discriminate]).
    split; [intros _; now exists e1, e2, e3 | discriminate].
  - intros value e2 e3 -> -> ->. simpl.
    do 5 (split; [reflexivity |]).
    intros ->. split; reflexivity.
Qed.

Lemma fetchInitialData_partial_failure_witness :
  let st' :=
    UseInitialData.fetchInitialData
      (answers (Envelope true "page one" None))
      (answers (T := unit) JsonNull)
      (answers (T := unit) Malformed)
      UseInitialData.mount in
  UseInitialData.products st' = Some "page one"
  /\ UseInitialData.categories st' = None
  /\ UseInitialData.cities st' = None
  /\ UseInitialData.error st' = None.
Proof.
  destruct (fetchInitialData_partial_failure string unit unit
              (answers (Envelope true "page one" None))
              (answers (T := unit) JsonNull)
              (answers (T := unit) Malformed)
              UseInitialData.mount) as (_ & _ & Hpartial).
  destruct (Hpartial "page one"
              (APIError "An unexpected error occurred" (Some 500)
                        (Some "UNKNOWN_ERROR")
                        (TypeError
                           "Cannot read properties of null (reading 'success')"))
              (APIError "An unexpected error occurred" (Some 500)
                        (Some "UNKNOWN_ERROR")
                        (OtherError "SyntaxError" None
                                    "Unexpected token in JSON"))
              eq_refl eq_refl eq_refl)
    as (Hp & _ & _ & He & _ & Hmount).
  destruct (Hmount eq_refl) as [Hc Hci].
  cbv zeta. repeat split; assumption.
Defined.

(** ** The products hook *)

(** C3.  Fetch A, then fetch B before A settles; B settles, then A.  The
    controller that was current for A has been aborted by the time B is
    issued, yet A's response is stored over B's: the final [data] is A's.
    When A fails instead, its error is shown next to B's data. *)
Theorem useProducts_stale_response_overwrites :
  let A := [("page", PNumber 1)] in
  let B := [("page", PNumber 2)] in
  let afterB :=
    UseProducts.run true
      [UseProducts.Fetch A (serves "page 1");
       UseProducts.Fetch B (serves "page 2"); UseProducts.Settle 1%nat] in
  let final :=
    UseProducts.run true
      [UseProducts.Fetch A (serves "page 1");
       UseProducts.Fetch B (serves "page 2"); UseProducts.Settle 1%nat;
       UseProducts.Settle 0%nat] in
  let finalFailed :=
    UseProducts.run true
      [UseProducts.Fetch A (answers (T := string) Malformed);
       UseProducts.Fetch B (serves "page 2"); UseProducts.Settle 1%nat;
       UseProducts.Settle 0%nat] in
  UseProducts.controllers (UseProducts.state afterB) = [true; false]
  /\ UseProducts.data (UseProducts.state afterB) = Some "page 2"
  /\ UseProducts.data (UseProducts.state final) = Some "page 1"
  /\ UseProducts.error (UseProducts.state final) = None
  /\ UseProducts.data (UseProducts.state finalFailed) = Some "page 2"
  /\ UseProducts.error (UseProducts.state finalFailed)
     = Some "An unexpected error occurred".
Proof.
  cbv zeta. repeat split; vm_compute; reflexivity.
Qed.

(** * Further properties *)

(** ** Runs of the retry loop *)

Section RetryRuns.

Context {T : Type}.
Variables (url : string) (options : RequestInit) (retryConfig : RetryConfig).

Lemma retriableFailure_retried (o : NetOutcome T) :
  retriableFailure o = true -> retried o = true.
Proof.
  intros H. destruct (retriableFailure_caught o H) as (e & He & Hn & Hname).
  unfold retried. rewrite He, Hn.
  destruct (name_of e); [reflexivity | contradiction].
Qed.

Lemma retried_caught (o : NetOutcome T) :
  retried o = true ->
  exists error s,
    attemptResult o = Abrupt error /\ nonRetriable error = false
    /\ name_of error = Some s.
Proof.
  unfold retried.
  destruct (attemptResult o) as [r | error |]; try discriminate.
  intros H. apply andb_true_iff in H as [Hn Hname].
  apply negb_true_iff in Hn.
  destruct (name_of error) as [s |] eqn:E; [| discriminate].
  now exists error, s.
Qed.

(** After [j] retried attempts, none of them the last one, the loop stands
    at iteration [attempt + j] with [j] calls and [j] backoffs on record. *)
Lemma retryLoop_prefix (j : nat) :
  forall (fuel : nat) (attempt : Z) (lastError : option Thrown)
         (w : World T),
    attempt + Z.of_nat j <= maxRetries retryConfig ->
    (forall k, (k < j)%nat -> retried (outcome w (calls w + k)) = true) ->
    exists lastError' w',
      retryLoop (j + fuel) url options retryConfig attempt lastError w
      = retryLoop fuel url options retryConfig (attempt + Z.of_nat j)
                  lastError' w'
      /\ (forall k, outcome w' k = outcome w k)
      /\ NEXT_PUBLIC_API_URL w' = NEXT_PUBLIC_API_URL w
      /\ requests w'
         = (requests w ++ repeat (url, requestInit options) j)%list
      /\ sleeps w'
         = (sleeps w
            ++ map (fun i => calculateDelay i retryConfig)
                   (attemptsFrom attempt j))%list
      /\ console w'
         = (console w
            ++ map (fun i =>
                      retryLine (calculateDelay i retryConfig) i retryConfig)
                   (attemptsFrom attempt j))%list.
Proof.
  induction j as [| j IH]; intros fuel attempt lastError w Hle Hfail.
  - exists lastError, w. rewrite Z.add_0_r. simpl.
    rewrite !app_nil_r. repeat split; reflexivity.
  - cbn [Nat.add]. rewrite retryLoop_eq.
    holds (attempt <=? maxRetries retryConfig).
    destruct (retried_caught _ (Hfail O (Nat.lt_0_succ _)))
      as (error & s & Hres & Hnr & Hname).
    rewrite Nat.add_0_r in Hres. rewrite Hres, Hnr, Hname.
    fails (attempt =? maxRetries retryConfig).
    set (w1 := backedOff retryConfig attempt (issued url options w)).
    assert (Hcalls : calls w1 = S (calls w)) by apply calls_issued.
    destruct (IH fuel (attempt + 1) (Some (classify error)) w1)
      as (le' & w' & Hrun & Hout & Henv & Hreq & Hsl & Hcon).
    + lia.
    + intros k Hk. rewrite Hcalls.
      change (outcome w1 (S (calls w) + k))
        with (outcome w (S (calls w) + k)).
      replace (S (calls w) + k)%nat with (calls w + S k)%nat by lia.
      apply Hfail; lia.
    + exists le', w'.
      replace (attempt + Z.of_nat (S j)) with (attempt + 1 + Z.of_nat j)
        by lia.
      split; [exact Hrun |].
      split; [intros k; rewrite Hout; reflexivity |].
      split; [rewrite Henv; reflexivity |].
      rewrite Hreq, Hsl, Hcon, attemptsFrom_S. unfold w1; simpl.
      rewrite <- !app_assoc. repeat split.
Qed.

(** The shape of any run of the loop, whatever the network does: between one
    and [m+1] calls of the same request, and a backoff with its console line
    after each call but the last. *)
Lemma retryLoop_shape (m : nat) :
  forall (attempt : Z) (lastError : option Thrown) (w : World T),
    maxRetries retryConfig = attempt + Z.of_nat m ->
    exists j,
      (j <= m)%nat
      /\ requests
           (snd (retryLoop (S m) url options retryConfig attempt lastError w))
         = (requests w ++ repeat (url, requestInit options) (S j))%list
      /\ sleeps
           (snd (retryLoop (S m) url options retryConfig attempt lastError w))
         = (sleeps w
            ++ map (fun i => calculateDelay i retryConfig)
                   (attemptsFrom attempt j))%list
      /\ console
           (snd (retryLoop (S m) url options retryConfig attempt lastError w))
         = (console w
            ++ map (fun i =>
                      retryLine (calculateDelay i retryConfig) i retryConfig)
                   (attemptsFrom attempt j))%list.
Proof.
  assert (Hone : forall (m' : nat) (a : Z) (w' : World T),
             exists j,
               (j <= m')%nat
               /\ requests (issued url options w')
                  = (requests w' ++ repeat (url, requestInit options) (S j))%list
               /\ sleeps (issued url options w')
                  = (sleeps w'
                     ++ map (fun i => calculateDelay i retryConfig)
                            (attemptsFrom a j))%list
               /\ console (issued url options w')
                  = (console w'
                     ++ map (fun i =>
                               retryLine (calculateDelay i retryConfig) i
                                         retryConfig)
                            (attemptsFrom a j))%list).
  { intros m' a w'. exists O. simpl. rewrite !app_nil_r.
    repeat split. apply Nat.le_0_l. }
  induction m as [| m IH]; intros attempt lastError w Hmax;
    rewrite retryLoop_eq;
    holds (attempt <=? maxRetries retryConfig);
    (destruct (attemptResult (outcome w (calls w))) as [r | error |];
       [| | apply Hone]);
    try apply Hone;
    (destruct (nonRetriable error); [apply Hone |]);
    (destruct (name_of error); [| apply Hone]).
  - holds (attempt =? maxRetries retryConfig). apply Hone.
  - fails (attempt =? maxRetries retryConfig).
    destruct (IH (attempt + 1) (Some (classify error))
                 (backedOff retryConfig attempt (issued url options w)))
      as (j & Hj & Hreq & Hsl & Hcon); [lia |].
    exists (S j). split; [lia |].
    rewrite Hreq, Hsl, Hcon, attemptsFrom_S. simpl.
    rewrite <- !app_assoc. repeat split.
Qed.

End RetryRuns.

(** [fetchWithRetry] after [j] retried attempts that leave budget for one
    more. *)
Lemma fetchWithRetry_prefix :
  forall (T : Type) (url : string) (options : RequestInit)
         (retryConfig : RetryConfig) (w : World T) (j : nat),
    Z.of_nat j <= maxRetries retryConfig ->
    (forall k, (k < j)%nat -> retried (outcome w (calls w + k)) = true) ->
    exists lastError' w',
      fetchWithRetry url options retryConfig w
      = retryLoop (S (Z.to_nat (maxRetries retryConfig) - j)) url options
                  retryConfig (Z.of_nat j) lastError' w'
      /\ outcome w' (calls w') = outcome w (calls w + j)
      /\ NEXT_PUBLIC_API_URL w' = NEXT_PUBLIC_API_URL w
      /\ requests w'
         = (requests w ++ repeat (url, requestInit options) j)%list
      /\ sleeps w'
         = (sleeps w
            ++ map (fun i => calculateDelay i retryConfig)
                   (attemptsFrom 0 j))%list.
Proof.
  intros T url options retryConfig w j Hj Hfail.
  destruct (retryLoop_prefix url options retryConfig j
              (S (Z.to_nat (maxRetries retryConfig) - j)) 0 None w)
    as (le' & w' & Hrun & Hout & Henv & Hreq & Hsl & _); [lia | exact Hfail |].
  exists le', w'. split.
  - unfold fetchWithRetry.
    replace (Z.to_nat (maxRetries retryConfig + 1))
      with (j + S (Z.to_nat (maxRetries retryConfig) - j))%nat by lia.
    rewrite Hrun. reflexivity.
  - split; [| now repeat split].
    rewrite Hout. unfold calls. rewrite Hreq, length_app, repeat_length.
    reflexivity.
Qed.

(** X1.  When the first [j] attempts fail with retriable errors and attempt
    [j], still within the budget, gets an ok response, [fetchWithRetry]
    returns that response after [j+1] calls and the [j] backoffs
    [calculateDelay 0, ..., calculateDelay (j-1)]; with [j = 0] it returns at
    once, without any sleep. *)
Theorem fetchWithRetry_recovers :
  forall (T : Type) (url : string) (options : RequestInit)
         (retryConfig : RetryConfig) (w : World T) (j : nat)
         (r : Response T),
    Z.of_nat j <= maxRetries retryConfig ->
    (forall k, (k < j)%nat ->
       retriableFailure (outcome w (calls w + k)) = true) ->
    outcome w (calls w + j) = Resolved r ->
    ok r = true ->
    let run := fetchWithRetry url options retryConfig w in
    fst run = Normal r
    /\ calls (snd run) = (calls w + j + 1)%nat
    /\ sleeps (snd run)
       = (sleeps w
          ++ map (fun i => calculateDelay i retryConfig)
                 (attemptsFrom 0 j))%list.
Proof.
  intros T url options retryConfig w j r Hj Hfail Hout Hok run.
  destruct (fetchWithRetry_prefix T url options retryConfig w j Hj)
    as (le' & w' & Hrun & Hout' & _ & Hreq & Hsl).
  { intros k Hk. apply retriableFailure_retried, Hfail, Hk. }
  unfold run. rewrite Hrun, retryLoop_eq, Hout', Hout.
  holds (Z.of_nat j <=? maxRetries retryConfig).
  cbn [attemptResult]. rewrite Hok. simpl.
  split; [reflexivity |]. split; [| exact Hsl].
  unfold calls; simpl. rewrite Hreq, !length_app, repeat_length. simpl. lia.
Qed.

Lemma fetchWithRetry_recovers_witness :
  fst (fetchWithRetry "/cities" noOptions DEFAULT_RETRY_CONFIG flakyTwice)
  = Normal {| status := 200; body := Envelope true tt None |}
  /\ calls (snd (fetchWithRetry "/cities" noOptions DEFAULT_RETRY_CONFIG
                                flakyTwice)) = 3%nat
  /\ sleeps (snd (fetchWithRetry "/cities" noOptions DEFAULT_RETRY_CONFIG
                                 flakyTwice)) = [1000; 2000].
Proof.
  assert (Hj : Z.of_nat 2 <= maxRetries DEFAULT_RETRY_CONFIG)
    by (simpl; lia).
  assert (Hfail : forall k, (k < 2)%nat ->
             retriableFailure (outcome flakyTwice (calls flakyTwice + k))
             = true).
  { intros k Hk. destruct k as [| [| k]]; [reflexivity | reflexivity | lia]. }
  exact (fetchWithRetry_recovers unit "/cities" noOptions
           DEFAULT_RETRY_CONFIG flakyTwice 2
           {| status := 200; body := Envelope true tt None |}
           Hj Hfail eq_refl eq_refl).
Defined.

(** X2.  A response that is not ok and has a non-zero status below 500 ends
    the run wherever it comes: after [j] attempts that failed with retriable
    errors, such a response at attempt [j] makes [fetchWithRetry] throw its
    [HTTP_ERROR] after [j+1] calls, the rest of the budget unused.  This
    covers the 1xx and 3xx statuses as well as the 4xx ones. *)
Theorem fetchWithRetry_stops_on_client_error :
  forall (T : Type) (url : string) (options : RequestInit)
         (retryConfig : RetryConfig) (w : World T) (j : nat)
         (r : Response T),
    Z.of_nat j <= maxRetries retryConfig ->
    (forall k, (k < j)%nat ->
       retriableFailure (outcome w (calls w + k)) = true) ->
    outcome w (calls w + j) = Resolved r ->
    ok r = false ->
    status r <> 0 ->
    status r < 500 ->
    let run := fetchWithRetry url options retryConfig w in
    fst run
    = Abrupt (APIError ("HTTP error! status: " ++ numberToString (status r))
                       (Some (status r)) (Some "HTTP_ERROR") UndefinedValue)
    /\ calls (snd run) = (calls w + j + 1)%nat.
Proof.
  intros T url options retryConfig w j r Hj Hfail Hout Hok Hnz Hlt run.
  destruct (fetchWithRetry_prefix T url options retryConfig w j Hj)
    as (le' & w' & Hrun & Hout' & _ & Hreq & _).
  { intros k Hk. apply retriableFailure_retried, Hfail, Hk. }
  unfold run. rewrite Hrun, retryLoop_eq, Hout', Hout.
  holds (Z.of_nat j <=? maxRetries retryConfig).
  cbn [attemptResult]. rewrite Hok.
  holds (status r <? 500).
  assert (Hnr : nonRetriable
                  (APIError ("HTTP error! status: " ++ numberToString (status r))
                            (Some (status r)) (Some "HTTP_ERROR")
                            UndefinedValue) = true).
  { unfold nonRetriable; simpl. apply andb_true_iff; split.
    - apply negb_true_iff, Z.eqb_neq; exact Hnz.
    - apply Z.ltb_lt; exact Hlt. }
  rewrite Hnr. simpl. split; [reflexivity |].
  unfold calls; simpl. rewrite Hreq, !length_app, repeat_length. simpl. lia.
Qed.

Lemma fetchWithRetry_stops_on_client_error_witness :
  fst (fetchWithRetry "/stats" noOptions DEFAULT_RETRY_CONFIG
                      downThenNotModified)
  = Abrupt (APIError "HTTP error! status: 304" (Some 304) (Some "HTTP_ERROR")
                     UndefinedValue)
  /\ calls (snd (fetchWithRetry "/stats" noOptions DEFAULT_RETRY_CONFIG
                                downThenNotModified)) = 2%nat.
Proof.
  assert (Hj : Z.of_nat 1 <= maxRetries DEFAULT_RETRY_CONFIG)
    by (simpl; lia).
  assert (Hfail : forall k, (k < 1)%nat ->
             retriableFailure
               (outcome downThenNotModified (calls downThenNotModified + k))
             = true).
  { intros k Hk. destruct k as [| k]; [reflexivity | lia]. }
  assert (Hnz : 304 <> 0) by lia.
  assert (Hlt : 304 < 500) by lia.
  exact (fetchWithRetry_stops_on_client_error unit "/stats" noOptions
           DEFAULT_RETRY_CONFIG downThenNotModified 1
           {| status := 304; body := Malformed |}
           Hj Hfail eq_refl eq_refl Hnz Hlt).
Defined.

(** X3.  Whatever the network does, a run of [fetchWithRetry] under a policy
    with [maxRetries = n >= 0] issues between one and [n+1] calls, every one
    of them the same request (the URL as given, the merged init object), and
    sleeps exactly once between two consecutive calls: after [j+1] calls the
    backoffs are [calculateDelay 0, ..., calculateDelay (j-1)], each with its
    console line. *)
Theorem fetchWithRetry_run_shape :
  forall (T : Type) (url : string) (options : RequestInit)
         (retryConfig : RetryConfig) (w : World T),
    0 <= maxRetries retryConfig ->
    let run := fetchWithRetry url options retryConfig w in
    exists j,
      (j <= Z.to_nat (maxRetries retryConfig))%nat
      /\ requests (snd run)
         = (requests w ++ repeat (url, requestInit options) (S j))%list
      /\ sleeps (snd run)
         = (sleeps w
            ++ map (fun i => calculateDelay i retryConfig)
                   (attemptsFrom 0 j))%list
      /\ console (snd run)
         = (console w
            ++ map (fun i =>
                      retryLine (calculateDelay i retryConfig) i retryConfig)
                   (attemptsFrom 0 j))%list.
Proof.
  intros T url options retryConfig w Hpos run. unfold run, fetchWithRetry.
  replace (Z.to_nat (maxRetries retryConfig + 1))
    with (S (Z.to_nat (maxRetries retryConfig))) by lia.
  apply retryLoop_shape. lia.
Qed.

Lemma fetchWithRetry_run_shape_witness :
  exists j,
    (j <= 3)%nat
    /\ requests (snd (fetchWithRetry "/shops" noOptions DEFAULT_RETRY_CONFIG
                                     flakyTwice))
       = ([] ++ repeat ("/shops", requestInit noOptions) (S j))%list
    /\ sleeps (snd (fetchWithRetry "/shops" noOptions DEFAULT_RETRY_CONFIG
                                   flakyTwice))
       = ([] ++ map (fun i => calculateDelay i DEFAULT_RETRY_CONFIG)
                    (attemptsFrom 0 j))%list
    /\ console (snd (fetchWithRetry "/shops" noOptions DEFAULT_RETRY_CONFIG
                                    flakyTwice))
       = ([] ++ map (fun i =>
                       retryLine (calculateDelay i DEFAULT_RETRY_CONFIG) i
                                 DEFAULT_RETRY_CONFIG)
                    (attemptsFrom 0 j))%list.
Proof.
  assert (Hpos : 0 <= maxRetries DEFAULT_RETRY_CONFIG) by (simpl; lia).
  exact (fetchWithRetry_run_shape unit "/shops" noOptions
           DEFAULT_RETRY_CONFIG flakyTwice Hpos).
Defined.

Lemma calculateDelay_le_maxDelay (config : RetryConfig) (i : Z) :
  calculateDelay i config <= maxDelay config.
Proof. unfold calculateDelay. apply Z.le_min_r. Qed.

Lemma total_map_le (f : Z -> Z) (c : Z) (l : list Z) :
  (forall x, f x <= c) ->
  total (map f l) <= Z.of_nat (List.length l) * c.
Proof.
  intros Hf. induction l as [| x l IH]; [simpl; lia |].
  cbn [map total fold_right List.length]. fold (total (map f l)).
  specialize (Hf x). lia.
Qed.

Lemma attemptsFrom_length (a : Z) (m : nat) :
  List.length (attemptsFrom a m) = m.
Proof. unfold attemptsFrom. now rewrite length_map, length_seq. Qed.

(** X4.  The time a run of [fetchWithRetry] spends in backoff is bounded by
    the policy alone: with [maxRetries = n >= 0] and [maxDelay >= 0] it
    sleeps at most [n] times, never longer than [maxDelay] at a time, so at
    most [n * maxDelay] in all. *)
Theorem fetchWithRetry_backoff_bounded :
  forall (T : Type) (url : string) (options : RequestInit)
         (retryConfig : RetryConfig) (w : World T),
    0 <= maxRetries retryConfig ->
    0 <= maxDelay retryConfig ->
    exists backoffs,
      sleeps (snd (fetchWithRetry url options retryConfig w))
      = (sleeps w ++ backoffs)%list
      /\ Z.of_nat (List.length backoffs) <= maxRetries retryConfig
      /\ (forall d, In d backoffs -> d <= maxDelay retryConfig)
      /\ total backoffs <= maxRetries retryConfig * maxDelay retryConfig.
Proof.
  intros T url options retryConfig w Hpos Hcap.
  unfold fetchWithRetry.
  replace (Z.to_nat (maxRetries retryConfig + 1))
    with (S (Z.to_nat (maxRetries retryConfig))) by lia.
  destruct (retryLoop_shape url options retryConfig
              (Z.to_nat (maxRetries retryConfig)) 0 None w)
    as (j & Hj & _ & Hsl & _); [lia |].
  exists (map (fun i => calculateDelay i retryConfig) (attemptsFrom 0 j)).
  split; [exact Hsl |]. split; [| split].
  - rewrite length_map, attemptsFrom_length. lia.
  - intros d Hd. apply in_map_iff in Hd as (i & <- & _).
    apply calculateDelay_le_maxDelay.
  - pose proof (total_map_le (fun i => calculateDelay i retryConfig)
                  (maxDelay retryConfig) (attemptsFrom 0 j)
                  (calculateDelay_le_maxDelay retryConfig)) as Hsum.
    rewrite attemptsFrom_length in Hsum. nia.
Qed.

Lemma fetchWithRetry_backoff_bounded_witness :
  exists backoffs,
    sleeps (snd (fetchWithRetry "/products" noOptions DEFAULT_RETRY_CONFIG
                                alwaysOffline))
    = ([] ++ backoffs)%list
    /\ Z.of_nat (List.length backoffs) <= 3
    /\ (forall d, In d backoffs -> d <= 10000)
    /\ total backoffs <= 3 * 10000.
Proof.
  assert (Hpos : 0 <= maxRetries DEFAULT_RETRY_CONFIG) by (simpl; lia).
  assert (Hcap : 0 <= maxDelay DEFAULT_RETRY_CONFIG) by (simpl; lia).
  exact (fetchWithRetry_backoff_bounded unit "/products" noOptions
           DEFAULT_RETRY_CONFIG alwaysOffline Hpos Hcap).
Defined.

(** X5.  A response with status 0 is not ok and is turned into an
    [HTTP_ERROR], but the [catch] clause tests [error.status] for truth
    before comparing it with 500, so this error is retried like a server
    error: when every attempt gets status 0, [n+1] calls are made and the
    [HTTP_ERROR] with status 0 is thrown at the end. *)
Theorem fetchWithRetry_retries_status_zero :
  forall (T : Type) (url : string) (options : RequestInit)
         (retryConfig : RetryConfig) (w : World T),
    0 <= maxRetries retryConfig ->
    (forall k, (k <= Z.to_nat (maxRetries retryConfig))%nat ->
       exists r, outcome w (calls w + k) = Resolved r /\ status r = 0) ->
    let run := fetchWithRetry url options retryConfig w in
    fst run
    = Abrupt (APIError "HTTP error! status: 0" (Some 0) (Some "HTTP_ERROR")
                       UndefinedValue)
    /\ calls (snd run)
       = (calls w + Z.to_nat (maxRetries retryConfig) + 1)%nat.
Proof.
  intros T url options retryConfig w Hpos Hzero run.
  assert (Hres : forall r : Response T,
             status r = 0 ->
             attemptResult (Resolved r)
             = Abrupt (APIError "HTTP error! status: 0" (Some 0)
                                (Some "HTTP_ERROR") UndefinedValue)).
  { intros r Hr. unfold attemptResult, ok. rewrite Hr. reflexivity. }
  destruct (fetchWithRetry_prefix T url options retryConfig w
              (Z.to_nat (maxRetries retryConfig)))
    as (le' & w' & Hrun & Hout' & _ & Hreq & _).
  - lia.
  - intros k Hk. destruct (Hzero k) as (r & Hr & Hst); [lia |].
    unfold retried. rewrite Hr, (Hres r Hst). reflexivity.
  - destruct (Hzero (Z.to_nat (maxRetries retryConfig)) (Nat.le_refl _))
      as (r & Hr & Hst).
    unfold run. rewrite Hrun, retryLoop_eq, Hout', Hr, (Hres r Hst).
    holds (Z.of_nat (Z.to_nat (maxRetries retryConfig))
           <=? maxRetries retryConfig).
    holds (Z.of_nat (Z.to_nat (maxRetries retryConfig))
           =? maxRetries retryConfig).
    simpl. split; [reflexivity |].
    unfold calls; simpl. rewrite Hreq, !length_app, repeat_length. simpl. lia.
Qed.

Lemma fetchWithRetry_retries_status_zero_witness :
  fst (fetchWithRetry "/stats" noOptions DEFAULT_RETRY_CONFIG (alwaysStatus 0))
  = Abrupt (APIError "HTTP error! status: 0" (Some 0) (Some "HTTP_ERROR")
                     UndefinedValue)
  /\ calls (snd (fetchWithRetry "/stats" noOptions DEFAULT_RETRY_CONFIG
                                (alwaysStatus 0))) = 4%nat.
Proof.
  assert (Hpos : 0 <= maxRetries DEFAULT_RETRY_CONFIG) by (simpl; lia).
  assert (Hzero : forall k,
             (k <= Z.to_nat (maxRetries DEFAULT_RETRY_CONFIG))%nat ->
             exists r,
               outcome (alwaysStatus 0) (calls (alwaysStatus 0) + k)
               = Resolved r /\ status r = 0).
  { intros k _. exists {| status := 0; body := Malformed |}.
    split; reflexivity. }
  exact (fetchWithRetry_retries_status_zero unit "/stats" noOptions
           DEFAULT_RETRY_CONFIG (alwaysStatus 0) Hpos Hzero).
Defined.

(** X6.  With a negative [maxRetries] the loop body never runs:
    [fetchWithRetry] issues no call, sleeps not at all and throws
    [undefined], the value of the never-assigned [lastError]. *)
Theorem fetchWithRetry_negative_budget :
  forall (T : Type) (url : string) (options : RequestInit)
         (retryConfig : RetryConfig) (w : World T),
    maxRetries retryConfig < 0 ->
    fetchWithRetry url options retryConfig w = (Abrupt UndefinedValue, w).
Proof.
  intros T url options retryConfig w Hneg. unfold fetchWithRetry.
  destruct (Z.to_nat (maxRetries retryConfig + 1)); cbn [retryLoop];
    fails (0 <=? maxRetries retryConfig); reflexivity.
Qed.

Lemma fetchWithRetry_negative_budget_witness :
  fetchWithRetry "/cities" noOptions
    {| maxRetries := -1; baseDelay := 1000; maxDelay := 10000;
       backoffMultiplier := 2 |}
    (answers (Envelope true tt None))
  = (Abrupt UndefinedValue, answers (Envelope true tt None)).
Proof.
  apply (fetchWithRetry_negative_budget unit "/cities" noOptions
           {| maxRetries := -1; baseDelay := 1000; maxDelay := 10000;
              backoffMultiplier := 2 |}
           (answers (Envelope true tt None))).
  simpl; lia.
Defined.

(** X7.  With a non-negative base delay and a multiplier of at least one the
    backoff never shrinks from one attempt to a later one, and once it has
    reached [maxDelay] it stays there. *)
Theorem calculateDelay_monotone :
  forall (config : RetryConfig) (i j : Z),
    0 <= baseDelay config ->
    1 <= backoffMultiplier config ->
    0 <= i <= j ->
    calculateDelay i config <= calculateDelay j config
    /\ (calculateDelay i config = maxDelay config ->
        calculateDelay j config = maxDelay config).
Proof.
  intros config i j Hbase Hmul Hij.
  assert (Hmono : calculateDelay i config <= calculateDelay j config).
  { unfold calculateDelay. apply Z.min_le_compat_r.
    apply Z.mul_le_mono_nonneg_l; [exact Hbase |].
    apply Z.pow_le_mono_r; lia. }
  split; [exact Hmono |].
  intros Hcap. pose proof (calculateDelay_le_maxDelay config j). lia.
Qed.

Lemma calculateDelay_monotone_witness :
  calculateDelay 3 DEFAULT_RETRY_CONFIG <= calculateDelay 7 DEFAULT_RETRY_CONFIG
  /\ (calculateDelay 3 DEFAULT_RETRY_CONFIG = maxDelay DEFAULT_RETRY_CONFIG ->
      calculateDelay 7 DEFAULT_RETRY_CONFIG = maxDelay DEFAULT_RETRY_CONFIG).
Proof.
  apply (calculateDelay_monotone DEFAULT_RETRY_CONFIG 3 7); simpl; lia.
Defined.

(** ** The init object of a call *)

Lemma lookup_assign (o : list (string * string)) (k v k' : string) :
  lookup (assign o k v) k'
  = if String.eqb k k' then Some v else lookup o k'.
Proof.
  induction o as [| [k0 v0] o IH]; simpl.
  - reflexivity.
  - destruct (String.eqb_spec k0 k) as [-> | Hne]; simpl.
    + destruct (String.eqb k k'); reflexivity.
    + rewrite IH. destruct (String.eqb_spec k0 k') as [-> | Hne'].
      * destruct (String.eqb_spec k k') as [-> | _];
          [contradiction | reflexivity].
      * reflexivity.
Qed.

Lemma lookup_spread (extra : list (string * string)) :
  forall (base : list (string * string)) (k : string),
    lookup (spread base extra) k
    = match lookupLast extra k with
      | Some v => Some v
      | None => lookup base k
      end.
Proof.
  unfold spread.
  induction extra as [| [k0 v0] extra IH]; intros base k; simpl.
  - reflexivity.
  - rewrite IH, lookup_assign.
    destruct (lookupLast extra k); [reflexivity |].
    destruct (String.eqb k0 k); reflexivity.
Qed.

(** X8.  In the init object that [fetchWithRetry] hands to [fetch], a header
    the caller supplies wins over the default of the same name, every other
    header is the default ([Content-Type] and [Accept] are
    [application/json]), so both are always present; and the signal is the
    one of the timeout controller, whatever signal the caller supplied. *)
Theorem requestInit_merges_headers :
  forall (options : RequestInit) (k : string),
    lookup (headers (requestInit options)) k
    = match lookupLast (headers options) k with
      | Some v => Some v
      | None =>
          if String.eqb "Content-Type" k then Some "application/json"
          else if String.eqb "Accept" k then Some "application/json"
          else None
      end
    /\ lookup (headers (requestInit options)) "Content-Type" <> None
    /\ lookup (headers (requestInit options)) "Accept" <> None
    /\ signal (requestInit options) = Some TimeoutSignal.
Proof.
  intros options k.
  assert (H : forall k',
             lookup (headers (requestInit options)) k'
             = match lookupLast (headers options) k' with
               | Some v => Some v
               | None =>
                   if String.eqb "Content-Type" k'
                   then Some "application/json"
                   else if String.eqb "Accept" k'
                        then Some "application/json"
                        else None
               end).
  { intros k'. unfold requestInit; cbn [headers]. rewrite lookup_spread.
    reflexivity. }
  split; [apply H |].
  split; [| split; [| reflexivity]]; rewrite H;
    destruct (lookupLast (headers options) _); discriminate.
Qed.

(** ** apiRequest from end to end *)

(** X9.  When the first [j <= 3] attempts fail with retriable errors and
    the next one gets an ok response whose body is an envelope with a true
    [success], [apiRequest] returns the envelope's [data] after [j+1] calls,
    each of them to the base URL (the environment's, or the production one
    when that is unset or empty) followed by the endpoint. *)
Theorem apiRequest_returns_data :
  forall (T : Type) (endpoint : string) (options : RequestInit)
         (w : World T) (j : nat) (r : Response T) (data : T)
         (error : option string),
    (j <= 3)%nat ->
    (forall k, (k < j)%nat ->
       retriableFailure (outcome w (calls w + k)) = true) ->
    outcome w (calls w + j) = Resolved r ->
    ok r = true ->
    body r = Envelope true data error ->
    let run := apiRequest endpoint options w in
    fst run = Normal data
    /\ requests (snd run)
       = (requests w
          ++ repeat ((API_BASE_URL w ++ endpoint)%string,
                     requestInit options) (S j))%list.
Proof.
  intros T endpoint options w j r data error Hj Hfail Hout Hok Hbody run.
  destruct (fetchWithRetry_prefix T (API_BASE_URL w ++ endpoint) options
              DEFAULT_RETRY_CONFIG w j)
    as (le' & w' & Hrun & Hout' & _ & Hreq & _).
  { simpl; lia. }
  { intros k Hk. apply retriableFailure_retried, Hfail, Hk. }
  assert (Efetch : fetchWithRetry (API_BASE_URL w ++ endpoint) options
                                  DEFAULT_RETRY_CONFIG w
                   = (Normal r,
                      issued (API_BASE_URL w ++ endpoint) options w')).
  { rewrite Hrun, retryLoop_eq, Hout', Hout.
    change (maxRetries DEFAULT_RETRY_CONFIG) with 3.
    holds (Z.of_nat j <=? 3).
    cbn [attemptResult]. now rewrite Hok. }
  unfold run, apiRequest, tryCatch, apiRequestBody, bind.
  rewrite Efetch, Hbody. simpl. split; [reflexivity |].
  rewrite Hreq, <- app_assoc. f_equal.
  change [(API_BASE_URL w ++ endpoint, requestInit options)]
    with (repeat ((API_BASE_URL w ++ endpoint)%string,
                  requestInit options) 1).
  rewrite <- repeat_app.
  now replace (j + 1)%nat with (S j) by lia.
Qed.

Lemma apiRequest_returns_data_witness :
  fst (apiRequest "/cities" noOptions flakyTwice) = Normal tt
  /\ requests (snd (apiRequest "/cities" noOptions flakyTwice))
     = ([] ++ repeat ("https://shop.pantamak.com/api/v1/cities",
                      requestInit noOptions) 3)%list.
Proof.
  assert (Hj : (2 <= 3)%nat) by lia.
  assert (Hfail : forall k, (k < 2)%nat ->
             retriableFailure (outcome flakyTwice (calls flakyTwice + k))
             = true).
  { intros k Hk. destruct k as [| [| k]]; [reflexivity | reflexivity | lia]. }
  exact (apiRequest_returns_data unit "/cities" noOptions flakyTwice 2
           {| status := 200; body := Envelope true tt None |} tt None
           Hj Hfail eq_refl eq_refl eq_refl).
Defined.

(** X10.  What the user reads after a client error: when the first attempt
    of an [apiRequest] gets a response with a status in [400,499], the
    message [getErrorMessage] gives for the error thrown is the not-found
    text for 404, the invalid-request text for 400 and [HTTP error! status:
    N] for any other such status. *)
Theorem getErrorMessage_of_client_error :
  forall (T : Type) (endpoint : string) (options : RequestInit)
         (w : World T) (r : Response T),
    outcome w (calls w) = Resolved r ->
    400 <= status r <= 499 ->
    exists e,
      fst (apiRequest endpoint options w) = Abrupt e
      /\ getErrorMessage e
         = if status r =? 404 then "The requested resource was not found."
           else if status r =? 400
                then "Invalid request. Please check your input and try again."
                else "HTTP error! status: " ++ numberToString (status r).
Proof.
  intros T endpoint options w r Hout Hst.
  assert (Hok : ok r = false).
  { unfold ok. apply andb_false_iff; right. apply Z.leb_gt; lia. }
  destruct (fetchWithRetry_prefix T (API_BASE_URL w ++ endpoint) options
              DEFAULT_RETRY_CONFIG w 0)
    as (le' & w' & Hrun & Hout' & _).
  { simpl; lia. }
  { intros k Hk; lia. }
  rewrite Nat.add_0_r in Hout'.
  eexists. split.
  - unfold apiRequest, tryCatch, apiRequestBody, bind.
    rewrite Hrun, retryLoop_eq, Hout', Hout.
    cbn [attemptResult]. rewrite Hok.
    holds (status r <? 500).
    replace (nonRetriable
               (APIError ("HTTP error! status: " ++ numberToString (status r))
                         (Some (status r)) (Some "HTTP_ERROR")
                         UndefinedValue)) with true.
    + simpl. reflexivity.
    + symmetry. unfold nonRetriable; simpl. apply andb_true_iff; split.
      * apply negb_true_iff, Z.eqb_neq; lia.
      * apply Z.ltb_lt; lia.
  - unfold getErrorMessage. cbn -[Z.eqb String.append numberToString].
    destruct (Z.eqb_spec (status r) 404) as [-> | H404]; [reflexivity |].
    destruct (Z.eqb_spec (status r) 400) as [-> | H400]; [reflexivity |].
    destruct (status r) as [| p | p]; try reflexivity; try lia.
    repeat (destruct p as [p | p |]; try reflexivity; try lia).
Qed.

Lemma getErrorMessage_of_client_error_witness :
  exists e,
    fst (apiRequest "/products/7" noOptions (alwaysStatus 404)) = Abrupt e
    /\ getErrorMessage e = "The requested resource was not found.".
Proof.
  assert (Hst : 400 <= 404 <= 499) by lia.
  exact (getErrorMessage_of_client_error unit "/products/7" noOptions
           (alwaysStatus 404) {| status := 404; body := Malformed |}
           eq_refl Hst).
Defined.

(** X11.  What the user reads once the retries are used up: when each of the
    four attempts of an [apiRequest] fails with a retriable error, the
    message for the error thrown is the server-error text if the last attempt
    got a response, and the connection text if it was rejected with a
    [TypeError], an [AbortError] or a [NETWORK_ERR]. *)
Theorem getErrorMessage_of_exhausted_retries :
  forall (T : Type) (endpoint : string) (options : RequestInit)
         (w : World T),
    (forall k, (k <= 3)%nat ->
       retriableFailure (outcome w (calls w + k)) = true) ->
    exists e,
      fst (apiRequest endpoint options w) = Abrupt e
      /\ calls (snd (apiRequest endpoint options w)) = (calls w + 4)%nat
      /\ (forall r, outcome w (calls w + 3) = Resolved r ->
            getErrorMessage e
            = "Server error. Please try again in a few moments.")
      /\ (forall e', outcome w (calls w + 3) = Rejected e' ->
            isNetworkFailure e' = true ->
            getErrorMessage e
            = "Unable to connect to the server. Please check your internet connection and try again.").
Proof.
  intros T endpoint options w Hfail.
  destruct (retryLoop_all_fail (API_BASE_URL w ++ endpoint) options
              DEFAULT_RETRY_CONFIG 3 0 None w)
    as (error & w' & Hrun & Hlast & Hreq & _); [reflexivity | exact Hfail |].
  change (retryLoop 4 (API_BASE_URL w ++ endpoint) options
                    DEFAULT_RETRY_CONFIG 0 None w)
    with (fetchWithRetry (API_BASE_URL w ++ endpoint) options
                         DEFAULT_RETRY_CONFIG w) in Hrun.
  pose proof (Hfail 3%nat (Nat.le_refl _)) as H3.
  assert (Hcalls : calls (snd (apiRequest endpoint options w))
                   = (calls w + 4)%nat).
  { rewrite apiRequest_world, Hrun. unfold calls; simpl.
    rewrite Hreq, length_app, repeat_length. reflexivity. }
  assert (Erun : fst (apiRequest endpoint options w)
                 = Abrupt
                     (if instanceof_APIError (classify error)
                      then classify error
                      else APIError "An unexpected error occurred"
                                    (Some 500) (Some "UNKNOWN_ERROR")
                                    (classify error))).
  { unfold apiRequest, tryCatch, apiRequestBody, bind. rewrite Hrun.
    destruct (instanceof_APIError (classify error)); reflexivity. }
  destruct (outcome w (calls w + 3)) as [r | e'] eqn:Elast.
  - simpl in H3, Hlast. apply Z.leb_le in H3.
    replace (ok r) with false in Hlast
      by (symmetry; unfold ok; apply andb_false_iff; right;
          apply Z.leb_gt; lia).
    fails (status r <? 500).
    replace (status r <? 500) with false in Hlast
      by (symmetry; apply Z.ltb_ge; lia).
    injection Hlast as <-.
    eexists. split; [rewrite Erun; reflexivity |].
    split; [exact Hcalls |]. split; [reflexivity |]. intros e' He'.
    discriminate He'.
  - simpl in Hlast. injection Hlast as <-.
    destruct (isNetworkFailure e') eqn:Enet.
    + eexists. split.
      * rewrite Erun. unfold classify. rewrite Enet. reflexivity.
      * split; [exact Hcalls |]. split; [intros r Hr; discriminate Hr |].
        intros e'' _ _. reflexivity.
    + eexists. split; [exact Erun |].
      split; [exact Hcalls |]. split; [intros r Hr; discriminate Hr |].
      intros e'' He'' Hnet. injection He'' as <-. congruence.
Qed.

Lemma getErrorMessage_of_exhausted_retries_witness :
  exists e,
    fst (apiRequest "/products" noOptions alwaysOffline) = Abrupt e
    /\ calls (snd (apiRequest "/products" noOptions alwaysOffline)) = 4%nat
    /\ getErrorMessage e
       = "Unable to connect to the server. Please check your internet connection and try again.".
Proof.
  assert (Hfail : forall k, (k <= 3)%nat ->
             retriableFailure (outcome alwaysOffline (calls alwaysOffline + k))
             = true) by (intros k _; reflexivity).
  destruct (getErrorMessage_of_exhausted_retries unit "/products" noOptions
              alwaysOffline Hfail) as (e & He & Hcalls & _ & Hnet).
  exists e. split; [exact He |]. split; [exact Hcalls |].
  exact (Hnet (TypeError "Failed to fetch") eq_refl eq_refl).
Defined.

(** X12.  On the errors made from a response, [isRetriableError] and the
    retry loop agree as long as the status is not 0: for every response that
    is not ok and has a non-zero status, [isRetriableError] holds of the
    error thrown for it exactly when [fetchWithRetry] would retry it; and it
    holds of every [NetworkError] the loop makes out of a transport
    failure. *)
Theorem isRetriableError_agrees_with_retry :
  forall (T : Type) (r : Response T),
    ok r = false ->
    status r <> 0 ->
    (exists e,
       attemptResult (Resolved r) = Abrupt e
       /\ isRetriableError e = retried (Resolved r)
       /\ isRetriableError e = (500 <=? status r))
    /\ (forall e', isNetworkFailure e' = true ->
          isRetriableError (classify e') = true).
Proof.
  intros T r Hok Hnz. split.
  - unfold retried. cbn [attemptResult]. rewrite Hok.
    destruct (Z.ltb_spec (status r) 500) as [Hlt | Hge].
    + eexists. split; [reflexivity |].
      unfold isRetriableError, nonRetriable; simpl.
      fails (500 <=? status r). holds (status r <? 500).
      replace (status r =? 0) with false
        by (symmetry; apply Z.eqb_neq; exact Hnz).
      split; reflexivity.
    + eexists. split; [reflexivity |].
      unfold isRetriableError, nonRetriable; simpl.
      holds (500 <=? status r). fails (status r <? 500).
      rewrite andb_false_r. split; reflexivity.
  - intros e' Hnet. unfold classify. rewrite Hnet. reflexivity.
Qed.

Lemma isRetriableError_agrees_with_retry_witness :
  exists e,
    attemptResult (Resolved {| status := 429; body := @Malformed unit |})
    = Abrupt e
    /\ isRetriableError e
       = retried (Resolved {| status := 429; body := @Malformed unit |})
    /\ isRetriableError e = (500 <=? 429).
Proof.
  assert (Hnz : 429 <> 0) by lia.
  destruct (isRetriableError_agrees_with_retry unit
              {| status := 429; body := Malformed |} eq_refl Hnz)
    as [Hresp _].
  exact Hresp.
Defined.

(** ** The hooks without cancellation *)

(** X13.  [useProduct] with a product id of 0, or disabled, never fetches:
    however often [fetchProduct] is called, the state stays the one of the
    first render.  With [enabled = true] and the id 0 the hook therefore
    shows [loading = true] for ever. *)
Theorem fetchProduct_guard :
  forall (D : Type) (productId : Z) (enabled : bool) (ws : list (World D)),
    enabled = false \/ productId = 0 ->
    fetchEach (UseApi.fetchProduct productId enabled) ws
              (UseApi.mount enabled)
    = UseApi.mount enabled
    /\ UseApi.loading
         (fetchEach (UseApi.fetchProduct productId enabled) ws
                    (UseApi.mount enabled))
       = enabled.
Proof.
  intros D productId enabled ws Hguard.
  assert (H : forall st : UseApi.UseApiState D,
             fetchEach (UseApi.fetchProduct productId enabled) ws st = st).
  { induction ws as [| w ws IH]; intros st; [reflexivity |].
    unfold fetchEach in *. cbn [fold_left]. rewrite IH.
    unfold UseApi.fetchProduct.
    destruct Hguard as [-> | ->]; [reflexivity |].
    now rewrite orb_true_r. }
  rewrite H. split; reflexivity.
Qed.

Lemma fetchProduct_guard_witness :
  UseApi.loading
    (fetchEach (UseApi.fetchProduct 0 true)
               [serves "one"; serves "two"] (UseApi.mount true))
  = true.
Proof.
  destruct (fetchProduct_guard string 0 true [serves "one"; serves "two"]
              (or_intror eq_refl)) as [_ H].
  exact H.
Defined.

Section UseApiRuns.

Context {D : Type}.
Variable call : World D -> Completion D.
Hypothesis call_settles : forall w, call w <> Diverged.

Lemma finish_data (ws : list (World D)) :
  forall st : UseApi.UseApiState D,
    UseApi.data
      (fetchEach (fun w st => UseApi.finish (call w) (UseApi.begin st)) ws st)
    = UseApi.lastFulfilled (map call ws) (UseApi.data st).
Proof.
  induction ws as [| w ws IH]; intros st; [reflexivity |].
  unfold fetchEach in *. cbn [fold_left map]. rewrite IH.
  pose proof (call_settles w) as Hs.
  destruct (call w) as [v | e |]; [reflexivity | reflexivity | contradiction].
Qed.

Lemma finish_last (ws : list (World D)) :
  forall st : UseApi.UseApiState D,
    ws <> [] ->
    UseApi.loading
      (fetchEach (fun w st => UseApi.finish (call w) (UseApi.begin st)) ws st)
    = false
    /\ UseApi.error
         (fetchEach (fun w st => UseApi.finish (call w) (UseApi.begin st))
                    ws st)
       = UseApi.lastFailure (map call ws).
Proof.
  induction ws as [| w ws IH]; intros st Hne; [contradiction |].
  destruct ws as [| w' ws].
  - unfold fetchEach, UseApi.lastFailure. cbn [fold_left map last].
    pose proof (call_settles w) as Hs.
    destruct (call w) as [v | e |]; [now split | now split | contradiction].
  - unfold fetchEach in *. cbn [fold_left].
    destruct (IH (UseApi.finish (call w) (UseApi.begin st)))
      as [Hl He]; [discriminate |].
    cbn [fold_left] in Hl, He. split; [exact Hl |].
    rewrite He. reflexivity.
Qed.

Lemma finish_showsLastOutcome :
  showsLastOutcome (fun w st => UseApi.finish (call w) (UseApi.begin st))
                   call.
Proof.
  intros ws st Hne. destruct (finish_last ws st Hne) as [Hl He].
  split; [exact Hl |]. split; [apply finish_data | exact He].
Qed.

End UseApiRuns.

(** X14.  [useCities], [useCategories], [useShops] (enabled) and
    [useProduct] (enabled, with a non-zero id) show the last outcome: after
    one or more fetches run one after the other the hook is not loading, its
    data are those of the last call that succeeded (a failure never erases
    them) and its error is the message of the last call if it failed, [null]
    if it succeeded. *)
Theorem useApi_hooks_show_last_outcome :
  forall (D : Type),
    showsLastOutcome (D := D) UseApi.fetchCities
                     (fun w => fst (PantamakAPI.getCities w))
    /\ (forall ofProducts : bool,
          showsLastOutcome (D := D) (UseApi.fetchCategories ofProducts)
            (fun w =>
               fst (if ofProducts then PantamakAPI.getProductCategories w
                    else PantamakAPI.getShopCategories w)))
    /\ (forall params,
          showsLastOutcome (D := D) (UseApi.fetchShops params true)
            (fun w => fst (PantamakAPI.getShops params w)))
    /\ (forall productId,
          productId <> 0 ->
          showsLastOutcome (D := D) (UseApi.fetchProduct productId true)
            (fun w => fst (PantamakAPI.getProduct productId w))).
Proof.
  intros D. split; [| split; [| split]].
  - apply (finish_showsLastOutcome
             (fun w => fst (PantamakAPI.getCities w))).
    intros w. apply apiRequest_settles.
  - intros ofProducts.
    apply (finish_showsLastOutcome
             (fun w =>
                fst (if ofProducts then PantamakAPI.getProductCategories w
                     else PantamakAPI.getShopCategories w))).
    intros w. destruct ofProducts; apply apiRequest_settles.
  - intros params.
    apply (finish_showsLastOutcome
             (fun w => fst (PantamakAPI.getShops params w))).
    intros w. apply apiRequest_settles.
  - intros productId Hnz ws st Hne.
    replace (fetchEach (UseApi.fetchProduct productId true) ws st)
      with (fetchEach
              (fun w st =>
                 UseApi.finish (fst (PantamakAPI.getProduct productId w))
                               (UseApi.begin st)) ws st).
    + apply (finish_showsLastOutcome
               (fun w => fst (PantamakAPI.getProduct productId w)));
        [intros w; apply apiRequest_settles | exact Hne].
    + unfold fetchEach. clear Hne. revert st.
      induction ws as [| w ws IH]; intros st; [reflexivity |].
      cbn [fold_left]. rewrite IH. unfold UseApi.fetchProduct.
      replace (productId =? 0) with false
        by (symmetry; apply Z.eqb_neq; exact Hnz).
      reflexivity.
Qed.

Lemma useApi_hooks_show_last_outcome_witness :
  let st :=
    fetchEach UseApi.fetchCities
      [serves "Douala, Yaounde"; answers (T := string) Malformed]
      (UseApi.mount true) in
  UseApi.loading st = false
  /\ UseApi.data st = Some "Douala, Yaounde"
  /\ UseApi.error st = Some "An unexpected error occurred".
Proof.
  destruct (useApi_hooks_show_last_outcome string) as [Hcities _].
  assert (Hne : [serves "Douala, Yaounde"; answers (T := string) Malformed]
                <> []) by discriminate.
  exact (Hcities [serves "Douala, Yaounde"; answers (T := string) Malformed]
                 (UseApi.mount true) Hne).
Defined.

(** ** The suggestions hook *)

Lemma last_cons {A : Type} (l : list A) :
  forall a d : A, last (a :: l) d = last l a.
Proof.
  induction l as [| b l IH]; intros a d; [reflexivity |].
  change (last (a :: b :: l) d) with (last (b :: l) d).
  now rewrite !IH.
Qed.

Lemma typing_quiet (debounceMs : Z) (keys : list (Z * string)) :
  forall (h : UseSearchSuggestions.Hook) (query : string),
    (forall key, In key keys -> 0 <= fst key < debounceMs) ->
    UseSearchSuggestions.timer h
    = Some (query, UseSearchSuggestions.now h + debounceMs) ->
    exists h',
      fold_left (UseSearchSuggestions.step debounceMs)
                (UseSearchSuggestions.typing keys) h = h'
      /\ UseSearchSuggestions.timer h'
         = Some (last (map snd keys) query,
                 UseSearchSuggestions.now h' + debounceMs)
      /\ UseSearchSuggestions.fetched h' = UseSearchSuggestions.fetched h
      /\ UseSearchSuggestions.requested h'
         = UseSearchSuggestions.requested h
      /\ UseSearchSuggestions.suggestions (UseSearchSuggestions.state h')
         = UseSearchSuggestions.suggestions (UseSearchSuggestions.state h).
Proof.
  induction keys as [| [ms q] keys IH]; intros h query Hgap Htimer.
  - exists h. repeat split. exact Htimer.
  - unfold UseSearchSuggestions.typing in *. cbn [flat_map app fold_left].
    assert (Hms : 0 <= ms < debounceMs) by (apply (Hgap (ms, q)); now left).
    set (h1 := UseSearchSuggestions.step debounceMs
                 (UseSearchSuggestions.step debounceMs h
                    (UseSearchSuggestions.Elapse ms))
                 (UseSearchSuggestions.Change q)).
    assert (E1 : UseSearchSuggestions.timer h1
                 = Some (q, UseSearchSuggestions.now h1 + debounceMs)
                 /\ UseSearchSuggestions.fetched h1
                    = UseSearchSuggestions.fetched h
                 /\ UseSearchSuggestions.requested h1
                    = UseSearchSuggestions.requested h
                 /\ UseSearchSuggestions.suggestions
                      (UseSearchSuggestions.state h1)
                    = UseSearchSuggestions.suggestions
                        (UseSearchSuggestions.state h)).
    { unfold h1. cbn [UseSearchSuggestions.step].
      unfold UseSearchSuggestions.elapse. rewrite Htimer.
      fails (UseSearchSuggestions.now h + debounceMs
             <=? UseSearchSuggestions.now h + ms).
      repeat split. }
    destruct E1 as (Ht1 & Hf1 & Hr1 & Hs1).
    destruct (IH h1 q) as (h' & Hrun & Ht & Hf & Hr & Hs).
    + intros key Hin. apply Hgap. now right.
    + exact Ht1.
    + exists h'. split; [exact Hrun |].
      split; [| split; [congruence | split; congruence]].
      rewrite Ht. cbn [map snd]. now rewrite last_cons.
Qed.

(** X15.  Debounce.  After the first render with [query] and any number of
    keystrokes, each less than [debounceMs] after the one before, once
    [debounceMs] or more have passed without a keystroke [fetchSuggestions]
    has been called exactly once, with the last query typed.  That query is
    sent to the API only if it has at least two characters; a shorter one
    clears the suggestions. *)
Theorem useSearchSuggestions_debounce :
  forall (debounceMs : Z) (query : string) (keys : list (Z * string))
         (pause : Z),
    (forall key, In key keys -> 0 <= fst key < debounceMs) ->
    debounceMs <= pause ->
    let h :=
      UseSearchSuggestions.run debounceMs query
        (UseSearchSuggestions.typing keys
         ++ [UseSearchSuggestions.Elapse pause]) in
    let final := last (map snd keys) query in
    UseSearchSuggestions.fetched h = [final]
    /\ UseSearchSuggestions.timer h = None
    /\ UseSearchSuggestions.requested h
       = (if Z.of_nat (String.length final) <? 2 then [] else [final])
    /\ ((String.length final < 2)%nat ->
        UseSearchSuggestions.suggestions (UseSearchSuggestions.state h)
        = None).
Proof.
  intros debounceMs query keys pause Hgap Hpause h final.
  unfold h, UseSearchSuggestions.run. rewrite fold_left_app.
  destruct (typing_quiet debounceMs keys
              {| UseSearchSuggestions.state := UseSearchSuggestions.mount;
                 UseSearchSuggestions.timer := Some (query, debounceMs);
                 UseSearchSuggestions.now := 0;
                 UseSearchSuggestions.fetched := [];
                 UseSearchSuggestions.requested := [] |} query Hgap eq_refl)
    as (h' & -> & Ht & Hf & Hr & Hs).
  cbn [fold_left UseSearchSuggestions.step].
  unfold UseSearchSuggestions.elapse. rewrite Ht. fold final.
  holds (UseSearchSuggestions.now h' + debounceMs
         <=? UseSearchSuggestions.now h' + pause).
  unfold UseSearchSuggestions.fire,
         UseSearchSuggestions.fetchSuggestions_start.
  rewrite Hf, Hr.
  destruct (Z.ltb_spec (Z.of_nat (String.length final)) 2) as [Hlt | Hge];
    cbn; repeat split; intros; lia.
Qed.

Lemma useSearchSuggestions_debounce_witness :
  let h :=
    UseSearchSuggestions.run 300 ""
      (UseSearchSuggestions.typing [(120, "s"); (80, "sh"); (250, "sho")]
       ++ [UseSearchSuggestions.Elapse 300]) in
  UseSearchSuggestions.fetched h = ["sho"]
  /\ UseSearchSuggestions.requested h = ["sho"].
Proof.
  assert (Hgap : forall key,
             In key [(120, "s"); (80, "sh"); (250, "sho")] ->
             0 <= fst key < 300).
  { intros key [<- | [<- | [<- | []]]]; simpl; lia. }
  assert (Hpause : 300 <= 300) by lia.
  destruct (useSearchSuggestions_debounce 300 ""
              [(120, "s"); (80, "sh"); (250, "sho")] 300 Hgap Hpause)
    as (Hf & _ & Hr & _).
  split; [exact Hf | exact Hr].
Defined.

(** ** Connectivity *)

Lemma offline_is_not_online (events : list WindowEvent) :
  forall b : bool,
    fold_left
      (fun (isOffline : bool) ev =>
         match ev with
         | OnlineEvent => false
         | OfflineEvent => true
         end) events (negb b)
    = negb
        (fold_left
           (fun (isOnline : bool) ev =>
              match ev with
              | OnlineEvent => true
              | OfflineEvent => false
              end) events b).
Proof.
  induction events as [| ev events IH]; intros b; [reflexivity |].
  cbn [fold_left]. destruct ev.
  - apply (IH true).
  - apply (IH false).
Qed.

Lemma last_map_Some {A : Type} (l : list A) :
  forall d : A, exists x, last (map Some l) (Some d) = Some x.
Proof.
  induction l as [| a l IH]; intros d; [now exists d |].
  cbn [map]. rewrite last_cons. apply IH.
Qed.

(** X16.  Once the effect of [useOfflineStatus] has run, the two
    connectivity hooks say the same thing after any sequence of window
    events: in a browser the one is the negation of the other, and both
    follow the last event (the value of [navigator.onLine] when there has
    been none); outside a browser the one says online and the other not
    offline. *)
Theorem connectivity_hooks_agree :
  forall (isBrowser navigatorOnLine : bool) (events : list WindowEvent),
    useOfflineStatus isBrowser navigatorOnLine events
    = negb (useOnlineStatus isBrowser navigatorOnLine events)
    /\ useOnlineStatus true navigatorOnLine events
       = match last (map Some events) None with
         | Some OnlineEvent => true
         | Some OfflineEvent => false
         | None => navigatorOnLine
         end.
Proof.
  intros isBrowser navigatorOnLine events. split.
  - unfold useOfflineStatus, useOnlineStatus.
    destruct isBrowser; [apply offline_is_not_online | reflexivity].
  - unfold useOnlineStatus. cbn [negb]. revert navigatorOnLine.
    induction events as [| ev events IH]; intros b; [reflexivity |].
    cbn [fold_left map]. rewrite IH, last_cons.
    destruct events as [| ev' events]; [destruct ev; reflexivity |].
    cbn [map]. rewrite !last_cons.
    destruct (last_map_Some events ev') as [x ->]. reflexivity.
Qed.

(** ** The browser page *)

Lemma buildSearchParams_map_filter (params : list (string * ParamValue)) :
  buildSearchParams params
  = map (fun entry => (fst entry, toStringValue (snd entry)))
        (filter (fun entry => retained (snd entry)) params).
Proof. unfold buildSearchParams. now rewrite buildSearchParams_fold. Qed.

(** X17.  The parameters the page gives to [useProducts], once through the
    omission rule of [getProducts]: the query string always carries [page],
    [per_page], [min_price] and [max_price], in this order around the
    others; it carries [query] exactly when the search box is not empty,
    [category] and [city] exactly when the selection is neither ["all"] nor
    empty, and [sort_by] exactly when the sort order is not empty. *)
Theorem apiParams_query_keys :
  forall (f : Page.Filters),
    map fst (buildSearchParams (Page.apiParams f))
    = (["page"; "per_page"]
       ++ (if Page.truthy (Page.searchQuery f) then ["query"] else [])
       ++ (if negb (String.eqb (Page.selectedCategory f) "all")
              && Page.truthy (Page.selectedCategory f)
           then ["category"] else [])
       ++ (if negb (String.eqb (Page.selectedCity f) "all")
              && Page.truthy (Page.selectedCity f)
           then ["city"] else [])
       ++ ["min_price"; "max_price"]
       ++ (if Page.truthy (Page.sortBy f) then ["sort_by"] else []))%list
    /\ In ("page", numberToString (Page.currentPage f))
          (buildSearchParams (Page.apiParams f))
    /\ In ("min_price", numberToString (fst (Page.priceRange f)))
          (buildSearchParams (Page.apiParams f))
    /\ In ("max_price", numberToString (snd (Page.priceRange f)))
          (buildSearchParams (Page.apiParams f)).
Proof.
  intros [q c city range sort page].
  rewrite buildSearchParams_map_filter.
  unfold Page.apiParams, Page.entryWhen; cbn [Page.searchQuery
    Page.selectedCategory Page.selectedCity Page.priceRange Page.sortBy
    Page.currentPage].
  destruct (String.eqb c "all") eqn:Ec; destruct (String.eqb city "all") eqn:Ei;
    destruct q as [| q0 q]; destruct c as [| c0 c];
    destruct city as [| i0 city]; destruct sort as [| s0 sort];
    try discriminate Ec; try discriminate Ei;
    cbn [Page.truthy negb andb app filter map fst snd retained toStringValue];
    repeat split; simpl; tauto.
Qed.

Section RecentlyViewedProofs.

Context {Product : Type}.
Variable id : Product -> Z.

Lemma In_firstn (n : nat) (l : list Product) (p : Product) :
  In p (firstn n l) -> In p l.
Proof.
  intros H. rewrite <- (firstn_skipn n l). apply in_or_app. now left.
Qed.

Lemma NoDup_firstn (n : nat) (l : list Z) : NoDup l -> NoDup (firstn n l).
Proof.
  intros H. rewrite <- (firstn_skipn n l) in H.
  now apply NoDup_app_remove_r in H.
Qed.

Lemma NoDup_map_filter (f : Product -> bool) (l : list Product) :
  NoDup (map id l) -> NoDup (map id (filter f l)).
Proof.
  induction l as [| p l IH]; intros H; [constructor |].
  cbn [map] in H. apply NoDup_cons_iff in H as [Hnin Hnd].
  cbn [filter]. destruct (f p); [| now apply IH].
  cbn [map]. constructor; [| now apply IH].
  intros Hin. apply Hnin. apply in_map_iff in Hin as (x & Hx & Hin).
  apply filter_In in Hin as [Hin _]. apply in_map_iff. now exists x.
Qed.

End RecentlyViewedProofs.

(** X18.  The recently-viewed list after a product is viewed: the product
    comes first, the list has at most ten entries, every other entry was in
    the list before and has another id, a list without repeated ids stays
    so, and as long as the list had fewer than ten entries no other product
    is dropped. *)
Theorem viewProduct_recent_list :
  forall (Product : Type) (id : Product -> Z) (product : Product)
         (prev : list Product),
    let next := Page.viewProduct id product prev in
    hd_error next = Some product
    /\ (List.length next <= 10)%nat
    /\ (forall p, In p next ->
          p = product \/ (In p prev /\ id p <> id product))
    /\ (NoDup (map id prev) -> NoDup (map id next))
    /\ ((List.length prev < 10)%nat ->
        forall p, In p prev -> id p <> id product -> In p next).
Proof.
  intros Product id product prev next. unfold next, Page.viewProduct.
  split; [reflexivity |]. split; [apply firstn_le_length |].
  split; [| split].
  - intros p Hin. apply In_firstn in Hin. destruct Hin as [<- | Hin];
      [now left | right].
    apply filter_In in Hin as [Hin Hne]. split; [exact Hin |].
    apply negb_true_iff, Z.eqb_neq in Hne. exact Hne.
  - intros Hnd. rewrite <- firstn_map. apply NoDup_firstn.
    cbn [map]. constructor; [| now apply NoDup_map_filter].
    intros Hin. apply in_map_iff in Hin as (x & Hx & Hin).
    apply filter_In in Hin as [_ Hne].
    apply negb_true_iff, Z.eqb_neq in Hne. contradiction.
  - intros Hlen p Hin Hne. rewrite firstn_all2.
    + right. apply filter_In. split; [exact Hin |].
      apply negb_true_iff, Z.eqb_neq. exact Hne.
    + cbn [List.length].
      pose proof (filter_length_le
                    (fun p => negb (id p =? id product)) prev). lia.
Qed.

Lemma viewProduct_recent_list_witness :
  NoDup (map (fun p : Z => p) (Page.viewProduct (fun p => p) 3 [1; 2; 3; 4]))
  /\ In 4 (Page.viewProduct (fun p => p) 3 [1; 2; 3; 4]).
Proof.
  destruct (viewProduct_recent_list Z (fun p => p) 3 [1; 2; 3; 4])
    as (_ & _ & _ & Hnd & Hkeep).
  split.
  - apply Hnd. simpl. repeat constructor; simpl; intuition lia.
  - apply Hkeep; simpl; [lia | intuition lia | lia].
Defined.



(** X20.  The rating and condition check boxes of the sidebar: unchecking
    removes every occurrence of the value and nothing else, checking adds
    the value and nothing else, the two handlers are the same function, and
    checking a value that was not selected and then unchecking it gives the
    selection back as it was. *)
Theorem handleRatingChange_toggle :
  forall (selected : list string) (rating : string),
    ~ In rating (FilterSidebar.handleRatingChange selected rating false)
    /\ (forall r,
          In r (FilterSidebar.handleRatingChange selected rating false)
          <-> In r selected /\ r <> rating)
    /\ (forall r,
          In r (FilterSidebar.handleRatingChange selected rating true)
          <-> In r selected \/ r = rating)
    /\ (forall checked,
          FilterSidebar.handleConditionChange selected rating checked
          = FilterSidebar.handleRatingChange selected rating checked)
    /\ (~ In rating selected ->
        FilterSidebar.handleRatingChange
          (FilterSidebar.handleRatingChange selected rating true)
          rating false
        = selected).
Proof.
  intros selected rating.
  assert (Hoff : forall r,
             In r (FilterSidebar.handleRatingChange selected rating false)
             <-> In r selected /\ r <> rating).
  { intros r. unfold FilterSidebar.handleRatingChange.
    rewrite filter_In, negb_true_iff, String.eqb_neq. reflexivity. }
  split; [| split; [exact Hoff | split; [| split]]].
  - intros Hin. apply Hoff in Hin as [_ Hne]. now apply Hne.
  - intros r. unfold FilterSidebar.handleRatingChange.
    rewrite in_app_iff. simpl. intuition.
  - intros checked. reflexivity.
  - intros Hnin. unfold FilterSidebar.handleRatingChange.
    rewrite filter_app. cbn [filter]. rewrite String.eqb_refl. cbn [negb].
    rewrite app_nil_r. apply forallb_filter_id. apply forallb_forall.
    intros r Hr. apply negb_true_iff, String.eqb_neq.
    intros ->. contradiction.
Qed.

Lemma handleRatingChange_toggle_witness :
  FilterSidebar.handleRatingChange
    (FilterSidebar.handleRatingChange ["4"; "3"] "5" true) "5" false
  = ["4"; "3"].
Proof.
  destruct (handleRatingChange_toggle ["4"; "3"] "5") as (_ & _ & _ & _ & H).
  apply H. simpl. intros [H1 | [H1 | []]]; discriminate H1.
Defined.

(** ** Aborts and the hooks *)

Lemma apiRequest_throws_typed :
  forall (T : Type) (endpoint : string) (options : RequestInit)
         (w : World T) (e : Thrown),
    fst (apiRequest endpoint options w) = Abrupt e ->
    instanceof_APIError e = true.
Proof.
  intros T endpoint options w e. unfold apiRequest, tryCatch.
  destruct (apiRequestBody (API_BASE_URL w ++ endpoint) options w)
    as [[a | e' |] w']; simpl; try discriminate.
  destruct (instanceof_APIError e') eqn:E; simpl; intros H;
    injection H as <-; [exact E | reflexivity].
Qed.

(** X23.  No API operation ever fails with an error named [AbortError]:
    [fetchWithRetry] turns every abort into a [NetworkError] and [apiRequest]
    wraps the rest.  So the test [err.name !== 'AbortError'] in the [catch]
    clauses of [useProducts] and [useSearchSuggestions] always passes: every
    failed request, one cut by the timeout included, sets the error message
    (and clears the suggestions) and ends the loading state. *)
Theorem hooks_never_see_an_abort :
  forall (T : Type) (endpoint : string) (options : RequestInit)
         (w : World T) (e : Thrown),
    fst (apiRequest endpoint options w) = Abrupt e ->
    name_of e <> Some "AbortError"
    /\ (forall st : UseProducts.State T,
          UseProducts.error (UseProducts.fetchProducts_resume (Abrupt e) st)
          = Some (getErrorMessage e)
          /\ UseProducts.loading
               (UseProducts.fetchProducts_resume (Abrupt e) st) = false)
    /\ (forall st : UseSearchSuggestions.State,
          UseSearchSuggestions.error
            (UseSearchSuggestions.fetchSuggestions_resume (Abrupt e) st)
          = Some (getErrorMessage e)
          /\ UseSearchSuggestions.suggestions
               (UseSearchSuggestions.fetchSuggestions_resume (Abrupt e) st)
             = None
          /\ UseSearchSuggestions.loading
               (UseSearchSuggestions.fetchSuggestions_resume (Abrupt e) st)
             = false).
Proof.
  intros T endpoint options w e He.
  apply apiRequest_throws_typed in He.
  destruct e as [[] message st code orig | | |]; try discriminate He;
    (split; [discriminate |]); split; intros st'; repeat split.
Qed.

Lemma hooks_never_see_an_abort_witness :
  exists e,
    fst (apiRequest "/products" noOptions alwaysTimedOut) = Abrupt e
    /\ name_of e <> Some "AbortError"
    /\ UseProducts.error
         (UseProducts.fetchProducts_resume (Abrupt e)
            (UseProducts.mount (D := unit) true))
       = Some (getErrorMessage e).
Proof.
  eexists. split; [reflexivity |].
  destruct (hooks_never_see_an_abort unit "/products" noOptions
              alwaysTimedOut _ eq_refl) as (Hname & Hproducts & _).
  split; [exact Hname |].
  exact (proj1 (Hproducts (UseProducts.mount true))).
Defined.
